(** * aurora-monitor2: the reservation monitor of [main.py]

    A shallow embedding of the extraction / change-detection pipeline of
    [main.py] and the properties of its specification.

    Conventions of the embedding.
    - A Python [str] is a Rocq [string] holding its UTF-8 encoding; the
      literals of the script ([2月], [日], [○], [△], [×]) are written as
      they are in the source.
    - A Python [dict] with string keys is an association list with
      distinct keys, kept in insertion order (the iteration order of a
      Python dict).
    - The page is the tree BeautifulSoup built from it; the HTTP exchange
      and the Slack webhook are the environment.  What is posted to the
      webhook is recorded in a log, the state file is a value of type
      [file], and both are passed explicitly.
    - An exception is a value [Raise e] of the [result] type.
    - The built-in functions are those of CPython 3.11 with its default
      settings (Unicode 14.0, at most 4300 digits in [int] of a text, a
      recursion limit of 1000), the script being run as a script.
    - The state file can hold any JSON value.  The text [str] gives to a
      value that is not a string (the script prints one only when the
      state file was not written by the script) is a parameter,
      [py_str], of the comparison and of the loop. *)

From Stdlib Require Import String Ascii List ZArith Lia Bool DecimalString.
From Stdlib Require Import Permutation Sorted.
Import ListNotations.
Open Scope string_scope.

(* ================================================================= *)
(** ** Exceptions *)

Inductive exn : Type :=
| IndexError
| KeyError
| ValueError
| AttributeError
| RequestException.

Inductive result (A : Type) : Type :=
| Return (a : A)
| Raise (e : exn).
Arguments Return {A} a.
Arguments Raise {A} e.

Definition bind {A B : Type} (m : result A) (k : A -> result B) : result B :=
  match m with
  | Return a => k a
  | Raise e => Raise e
  end.

Notation "x <- m ;; k" := (bind m (fun x => k))
  (at level 61, m at next level, right associativity).

(** [for x in l: s = body s x], stopping at the first exception. *)
Fixpoint for_each {A S : Type} (body : S -> A -> result S) (l : list A) (s : S)
  : result S :=
  match l with
  | [] => Return s
  | x :: rest => s' <- body s x ;; for_each body rest s'
  end.

(** [[f(x) for x in l]], stopping at the first exception. *)
Fixpoint map_result {A B : Type} (f : A -> result B) (l : list A)
  : result (list B) :=
  match l with
  | [] => Return []
  | x :: rest => y <- f x ;; ys <- map_result f rest ;; Return (y :: ys)
  end.

(* ================================================================= *)
(** ** Python strings *)

Module PyStr.

Definition nl : string := String (ascii_of_nat 10) "".

Definition bytes (l : list nat) : string :=
  string_of_list_ascii (map ascii_of_nat l).

Fixpoint starts_with (p s : string) : bool :=
  match p, s with
  | "", _ => true
  | String _ _, "" => false
  | String a p', String b s' => Ascii.eqb a b && starts_with p' s'
  end.

Fixpoint drop (n : nat) (s : string) : string :=
  match n, s with
  | O, _ => s
  | S _, "" => ""
  | S k, String _ r => drop k r
  end.

Definition reverse (s : string) : string :=
  string_of_list_ascii (rev (list_ascii_of_string s)).

(** [sub in s] *)
Fixpoint contains (sub s : string) : bool :=
  starts_with sub s ||
  match s with
  | "" => false
  | String _ r => contains sub r
  end.

(** [s.split(sep)] for a non-empty [sep]: [skip] counts the characters
    of a separator just found that are still to be passed over. *)
Fixpoint split_go (sep : string) (skip : nat) (s : string) : list string :=
  match s with
  | "" => [""]
  | String c r =>
      match skip with
      | S k => split_go sep k r
      | O =>
          if starts_with sep s
          then "" :: split_go sep (String.length sep - 1) r
          else match split_go sep 0 r with
               | [] => [String c ""]
               | piece :: pieces => String c piece :: pieces
               end
      end
  end.

Definition split (sep s : string) : list string := split_go sep 0 s.

(** [s.replace(old, new)] for a non-empty [old]. *)
Fixpoint replace_go (old new : string) (skip : nat) (s : string) : string :=
  match s with
  | "" => ""
  | String c r =>
      match skip with
      | S k => replace_go old new k r
      | O =>
          if starts_with old s
          then new ++ replace_go old new (String.length old - 1) r
          else String c (replace_go old new 0 r)
      end
  end.

Definition replace (old new s : string) : string := replace_go old new 0 s.

(** The characters [str.isspace] accepts, UTF-8 encoded: U+0009..U+000D,
    U+001C..U+0020, U+0085, U+00A0, U+1680, U+2000..U+200A, U+2028,
    U+2029, U+202F, U+205F, U+3000. *)
Definition whitespace : list string :=
  map (fun b => bytes [b]) [9; 10; 11; 12; 13; 28; 29; 30; 31; 32]
  ++ [bytes [194; 133]; bytes [194; 160]; bytes [225; 154; 128]]
  ++ map (fun b => bytes [226; 128; b])
       [128; 129; 130; 131; 132; 133; 134; 135; 136; 137; 138; 168; 169; 175]
  ++ [bytes [226; 129; 159]; bytes [227; 128; 128]].

Fixpoint lstrip_go (ws : list string) (fuel : nat) (s : string) : string :=
  match fuel with
  | O => s
  | S f =>
      match find (fun w => starts_with w s) ws with
      | Some w => lstrip_go ws f (drop (String.length w) s)
      | None => s
      end
  end.

Definition lstrip (s : string) : string :=
  lstrip_go whitespace (String.length s) s.

Definition rstrip (s : string) : string :=
  reverse (lstrip_go (map reverse whitespace) (String.length s) (reverse s)).

(** [s.strip()] *)
Definition strip (s : string) : string := rstrip (lstrip s).

Definition is_digit (c : ascii) : bool :=
  (48 <=? nat_of_ascii c)%nat && (nat_of_ascii c <=? 57)%nat.

Definition digit_value (c : ascii) : Z := Z.of_nat (nat_of_ascii c - 48).

(** *** [int(s)]

    [int] of a [str], as CPython 3.11 computes it: the text is first
    brought to ASCII (every white space character above ASCII becomes a
    space, every decimal digit of Unicode 14.0 its ASCII digit, and the
    first other character above ASCII ends the text with a question
    mark); [PyLong_FromString] then reads white space, a sign, decimal
    digits with single underscores between them, and white space, and
    refuses more than 4300 digits. *)

Definition continuation (c : ascii) : option N :=
  let n := N_of_ascii c in
  if ((128 <=? n) && (n <? 192))%N then Some (n - 128)%N else None.

(** The character at the head of a UTF-8 text and the number of its
    bytes. *)
Definition code_point (s : string) : option (N * nat) :=
  match s with
  | "" => None
  | String c0 r =>
      let b0 := N_of_ascii c0 in
      if (b0 <? 128)%N then Some (b0, 1%nat)
      else if (b0 <? 192)%N then None
      else if (b0 <? 224)%N then
        match r with
        | String c1 _ =>
            match continuation c1 with
            | Some x1 =>
                let cp := ((b0 - 192) * 64 + x1)%N in
                if (cp <? 128)%N then None else Some (cp, 2%nat)
            | None => None
            end
        | _ => None
        end
      else if (b0 <? 240)%N then
        match r with
        | String c1 (String c2 _) =>
            match continuation c1, continuation c2 with
            | Some x1, Some x2 =>
                let cp := (((b0 - 224) * 64 + x1) * 64 + x2)%N in
                if (cp <? 2048)%N then None else Some (cp, 3%nat)
            | _, _ => None
            end
        | _ => None
        end
      else if (b0 <? 248)%N then
        match r with
        | String c1 (String c2 (String c3 _)) =>
            match continuation c1, continuation c2, continuation c3 with
            | Some x1, Some x2, Some x3 =>
                let cp := ((((b0 - 240) * 64 + x1) * 64 + x2) * 64 + x3)%N in
                if ((cp <? 65536) || (1114111 <? cp))%N then None
                else Some (cp, 4%nat)
            | _, _, _ => None
            end
        | _ => None
        end
      else None
  end.

(** [Py_UNICODE_ISSPACE]: the characters [str.isspace] accepts. *)
Definition is_unicode_space (cp : N) : bool :=
  existsb (N.eqb cp)
    [9; 10; 11; 12; 13; 28; 29; 30; 31; 32; 133; 160; 5760;
     8192; 8193; 8194; 8195; 8196; 8197; 8198; 8199; 8200; 8201; 8202;
     8232; 8233; 8239; 8287; 12288]%N.

(** The zeros of the decimal digits of Unicode 14.0; the digits 1 to 9
    of each script follow its zero. *)
Definition decimal_zeros : list N :=
  [48; 1632; 1776; 1984; 2406; 2534; 2662; 2790; 2918; 3046; 3174; 3302;
   3430; 3558; 3664; 3792; 3872; 4160; 4240; 6112; 6160; 6470; 6608;
   6784; 6800; 6992; 7088; 7232; 7248; 42528; 43216; 43264; 43472;
   43504; 43600; 44016; 65296; 66720; 68912; 69734; 69872; 69942; 70096;
   70384; 70736; 70864; 71248; 71360; 71472; 71904; 72016; 72784; 73040;
   73120; 92768; 92864; 93008; 120782; 120792; 120802; 120812; 120822;
   123200; 123632; 125264; 130032]%N.

(** [Py_UNICODE_TODECIMAL] *)
Definition decimal (cp : N) : option N :=
  match find (fun z => (z <=? cp) && (cp <? z + 10))%N decimal_zeros with
  | Some z => Some (cp - z)%N
  | None => None
  end.

Fixpoint is_ascii (s : string) : bool :=
  match s with
  | "" => true
  | String c r => (nat_of_ascii c <? 128)%nat && is_ascii r
  end.

(** [_PyUnicode_TransformDecimalAndSpaceToASCII] on a text that is not
    all ASCII; [skip] counts the bytes of the character just read that
    are still to be passed over. *)
Fixpoint to_ascii (skip : nat) (s : string) : string :=
  match s with
  | "" => ""
  | String c r =>
      match skip with
      | S k => to_ascii k r
      | O =>
          if (nat_of_ascii c <? 127)%nat then String c (to_ascii 0 r)
          else
            match code_point s with
            | Some (cp, len) =>
                if is_unicode_space cp then String " " (to_ascii (len - 1) r)
                else
                  match decimal cp with
                  | Some d =>
                      String (ascii_of_N (48 + d)) (to_ascii (len - 1) r)
                  | None => "?"
                  end
            | None => "?"
            end
      end
  end.

(** [Py_ISSPACE] *)
Definition is_ascii_space (c : ascii) : bool :=
  let n := nat_of_ascii c in
  ((9 <=? n) && (n <=? 13))%nat || (n =? 32)%nat.

Fixpoint skip_spaces (s : string) : string :=
  match s with
  | "" => ""
  | String c r => if is_ascii_space c then skip_spaces r else s
  end.

Fixpoint all_spaces (s : string) : bool :=
  match s with
  | "" => true
  | String c r => is_ascii_space c && all_spaces r
  end.

(** The digits of the literal, from its first one: the value read so
    far and the number of its digits; an underscore is accepted after a
    digit only, the literal ends after a digit, and only white space
    follows it. *)
Fixpoint int_digits (acc : Z) (count : N) (after_digit : bool) (s : string)
  : option (Z * N) :=
  match s with
  | "" => if after_digit then Some (acc, count) else None
  | String c r =>
      if is_digit c
      then int_digits (10 * acc + digit_value c) (count + 1) true r
      else if Ascii.eqb c "_" then
             if after_digit then int_digits acc count false r else None
      else if after_digit && all_spaces s then Some (acc, count)
      else None
  end.

(** [sys.get_int_max_str_digits()], which the script leaves as it is. *)
Definition int_max_str_digits : N := 4300.

Definition int (s : string) : result Z :=
  let t := skip_spaces (if is_ascii s then s else to_ascii 0 s) in
  let '(negative, body) :=
    match t with
    | String "-" r => (true, r)
    | String "+" r => (false, r)
    | _ => (false, t)
    end in
  match int_digits 0 0 false body with
  | Some (n, count) =>
      if (int_max_str_digits <? count)%N then Raise ValueError
      else Return (if negative : bool then (- n)%Z else n)
  | None => Raise ValueError
  end.

(** [str(i)] and [f"{i}"] for an [int]. *)
Definition of_int (i : Z) : string := NilZero.string_of_int (Z.to_int i).

(** [sep.join(l)] *)
Definition join (sep : string) (l : list string) : string :=
  String.concat sep l.

End PyStr.

(** [l[i]] with Python's negative indices. *)
Definition item {A : Type} (l : list A) (i : Z) : result A :=
  let n := Z.of_nat (List.length l) in
  let j := if (i <? 0)%Z then (n + i)%Z else i in
  if (j <? 0)%Z then Raise IndexError
  else match nth_error l (Z.to_nat j) with
       | Some x => Return x
       | None => Raise IndexError
       end.

(* ================================================================= *)
(** ** Python dicts with string keys *)

Section Dict.
Context {V : Type}.

(** [d[k] = v]: a key already present keeps its place. *)
Fixpoint dict_set (d : list (string * V)) (k : string) (v : V)
  : list (string * V) :=
  match d with
  | [] => [(k, v)]
  | (k', v') :: rest =>
      if String.eqb k' k then (k', v) :: rest
      else (k', v') :: dict_set rest k v
  end.

Fixpoint dict_find (d : list (string * V)) (k : string) : option V :=
  match d with
  | [] => None
  | (k', v') :: rest => if String.eqb k' k then Some v' else dict_find rest k
  end.

(** [d.get(k, default)] *)
Definition dict_get (d : list (string * V)) (k : string) (default : V) : V :=
  match dict_find d k with
  | Some v => v
  | None => default
  end.

(** [d[k]] *)
Definition dict_item (d : list (string * V)) (k : string) : result V :=
  match dict_find d k with
  | Some v => Return v
  | None => Raise KeyError
  end.

(** [d.keys()] *)
Definition keys (d : list (string * V)) : list string := map fst d.

End Dict.

(** A map from day label to status symbol. *)
Definition dict : Type := list (string * string).

(* ================================================================= *)
(** ** The parsed page *)

(** The tree of BeautifulSoup: tags with their attributes and contents,
    text ([NavigableString], which here includes [CData]), and the other
    string nodes ([Comment], declarations, processing instructions),
    which [get_text] passes over. *)
#[warnings="-register-all"]
Inductive node : Type :=
| Tag (name : string) (attrs : list (string * string)) (contents : list node)
| NavigableString (text : string)
| Comment (text : string).

(** [tag.descendants]: every node below [n], in document order. *)
Fixpoint descendants (n : node) : list node :=
  match n with
  | Tag _ _ contents => flat_map (fun c => c :: descendants c) contents
  | NavigableString _ => []
  | Comment _ => []
  end.

Definition is_tag (name : string) (n : node) : bool :=
  match n with
  | Tag name' _ _ => String.eqb name' name
  | _ => false
  end.

(** [tag.find_all(name)] *)
Definition find_all (name : string) (n : node) : list node :=
  filter (is_tag name) (descendants n).

(** [tag.find(name)] *)
Definition find_tag (name : string) (n : node) : option node :=
  hd_error (find_all name n).

(** [tag.get(key, default)] *)
Definition get (n : node) (key default : string) : string :=
  match n with
  | Tag _ attrs _ => dict_get attrs key default
  | _ => default
  end.

Definition text_of (n : node) : list string :=
  match n with
  | NavigableString t => [t]
  | _ => []
  end.

Definition non_empty (s : string) : bool :=
  negb (String.eqb s "").

(** [tag.get_text(strip=True)]: the text nodes below the tag, each
    stripped, the empty ones dropped, joined without a separator. *)
Definition get_text_strip (n : node) : string :=
  PyStr.join ""
    (filter non_empty (map PyStr.strip (flat_map text_of (descendants n)))).

(* ================================================================= *)
(** ** get_availability_status *)

Record response : Type := mk_response {
  status_code : Z;
  soup : node   (* BeautifulSoup(response.text, 'html.parser') *)
}.

Definition day_label (day : string) : string := "2月" ++ day ++ "日".

(** Lines 72-74: every day of the month starts as full. *)
Definition initial_availability : dict :=
  fold_left (fun availability i =>
               dict_set availability (day_label (PyStr.of_int i)) "×")
            (map Z.of_nat (seq 1 28)) [].

(** Lines 78-97: the body of the loop over the cells. *)
Definition cell_step (availability : dict) (cell : node) : result dict :=
  match find_tag "a" cell with
  | Some link =>
      if PyStr.contains "ynj=" (get link "href" "") then
        let href := get link "href" "" in
        after <- item (PyStr.split "ynj=" href) 1 ;;
        date_str <- item (PyStr.split "#" after) 0 ;;
        day <- item (PyStr.split "-" date_str) (-1) ;;
        let day_key := day_label day in
        match find_tag "em" link with
        | Some em_tag =>
            let status_text := get_text_strip em_tag in
            if PyStr.contains "○" status_text then
              Return (dict_set availability day_key "○")
            else if PyStr.contains "△" status_text then
              Return (dict_set availability day_key "△")
            else Return availability
        | None => Return availability
        end
      else Return availability
  | None => Return availability
  end.

(** Lines 59-103: from the parsed page to the map, [None] when the
    calendar table is not there. *)
Definition extract_calendar (soup : node) : result (option dict) :=
  let tables := find_all "table" soup in
  if (List.length tables <? 3)%nat then Return None
  else
    calendar_table <- item tables 2 ;;
    availability <-
      for_each cell_step (find_all "td" calendar_table) initial_availability ;;
    Return (Some availability).

(** [fetched] is what [requests.get] did: it returned a response or
    raised.  Any exception inside the function makes it return [None]. *)
Definition get_availability_status (fetched : result response) : option dict :=
  match (r <- fetched ;;
         if negb (status_code r =? 200)%Z then Return None
         else extract_calendar (soup r)) with
  | Return availability => availability
  | Raise _ => None
  end.

(* ================================================================= *)
(** ** The json module, as the state file uses it *)

(** What [json.load] can return.  A number keeps the text of its
    literal. *)
#[warnings="-register-all"]
Inductive json : Type :=
| JNull
| JBool (b : bool)
| JNumber (literal : string)
| JString (s : string)
| JArray (items : list json)
| JObject (members : list (string * json)).

Module Json.

Import PyStr.

Definition quote : ascii := ascii_of_nat 34.
Definition backslash : ascii := ascii_of_nat 92.

Definition is_ws (c : ascii) : bool :=
  Ascii.eqb c " " || Ascii.eqb c (ascii_of_nat 9)
  || Ascii.eqb c (ascii_of_nat 10) || Ascii.eqb c (ascii_of_nat 13).

Fixpoint skip_ws (s : string) : string :=
  match s with
  | "" => ""
  | String c r => if is_ws c then skip_ws r else s
  end.

(** *** Encoding: [json.dump(state, f, ensure_ascii=False, indent=2)] *)

Definition hex_digit (n : nat) : ascii :=
  if (n <? 10)%nat then ascii_of_nat (48 + n) else ascii_of_nat (87 + n).

(** With [ensure_ascii=False] only the quote, the backslash and the
    control characters are escaped. *)
Definition escape_char (c : ascii) : string :=
  let n := nat_of_ascii c in
  if Ascii.eqb c quote then String backslash (String quote "")
  else if Ascii.eqb c backslash then String backslash (String backslash "")
  else if (n =? 8)%nat then String backslash "b"
  else if (n =? 12)%nat then String backslash "f"
  else if (n =? 10)%nat then String backslash "n"
  else if (n =? 13)%nat then String backslash "r"
  else if (n =? 9)%nat then String backslash "t"
  else if (n <? 32)%nat then
    String backslash
      ("u00" ++ String (hex_digit (n / 16)) (String (hex_digit (n mod 16)) ""))
  else String c "".

Fixpoint escape (s : string) : string :=
  match s with
  | "" => ""
  | String c r => escape_char c ++ escape r
  end.

Definition encode_string (s : string) : string :=
  String quote (escape s ++ String quote "").

Definition encode_member (kv : string * string) : string :=
  encode_string (fst kv) ++ ": " ++ encode_string (snd kv).

Definition dumps (state : list (string * string)) : string :=
  match state with
  | [] => "{}"
  | _ :: _ =>
      "{" ++ nl ++ "  "
      ++ join ("," ++ nl ++ "  ") (map encode_member state)
      ++ nl ++ "}"
  end.

(** *** Decoding: [json.load(f)] *)

Definition hex_value (c : ascii) : option N :=
  let n := nat_of_ascii c in
  if ((48 <=? n) && (n <=? 57))%nat then Some (N.of_nat (n - 48))
  else if ((97 <=? n) && (n <=? 102))%nat then Some (N.of_nat (n - 87))
  else if ((65 <=? n) && (n <=? 70))%nat then Some (N.of_nat (n - 55))
  else None.

Definition hex4 (a b c d : ascii) : option N :=
  match hex_value a, hex_value b, hex_value c, hex_value d with
  | Some x, Some y, Some z, Some w =>
      Some (((x * 16 + y) * 16 + z) * 16 + w)%N
  | _, _, _, _ => None
  end.

Definition byte (n : N) : ascii := ascii_of_N n.

(** [chr(n)], UTF-8 encoded (a lone surrogate is encoded like any other
    character of its range). *)
Definition chr (n : N) : string :=
  if (n <? 128)%N then String (byte n) ""
  else if (n <? 2048)%N then
    String (byte (192 + n / 64)) (String (byte (128 + n mod 64)) "")
  else if (n <? 65536)%N then
    String (byte (224 + n / 4096))
      (String (byte (128 + (n / 64) mod 64))
         (String (byte (128 + n mod 64)) ""))
  else
    String (byte (240 + n / 262144))
      (String (byte (128 + (n / 4096) mod 64))
         (String (byte (128 + (n / 64) mod 64))
            (String (byte (128 + n mod 64)) ""))).

Definition is_high_surrogate (n : N) : bool :=
  ((55296 <=? n) && (n <=? 56319))%N.

Definition is_low_surrogate (n : N) : bool :=
  ((56320 <=? n) && (n <=? 57343))%N.

Definition join_surrogates (hi lo : N) : N :=
  (65536 + ((hi - 55296) * 1024 + (lo - 56320)))%N.

(** The one-letter escapes. *)
Definition unescape (e : ascii) : option string :=
  if Ascii.eqb e quote then Some (String quote "")
  else if Ascii.eqb e backslash then Some (String backslash "")
  else if Ascii.eqb e "/" then Some "/"
  else if Ascii.eqb e "b" then Some (bytes [8])
  else if Ascii.eqb e "f" then Some (bytes [12])
  else if Ascii.eqb e "n" then Some (bytes [10])
  else if Ascii.eqb e "r" then Some (bytes [13])
  else if Ascii.eqb e "t" then Some (bytes [9])
  else None.

Definition prepend (s : string) (r : option (string * string))
  : option (string * string) :=
  match r with
  | Some (content, rest) => Some (s ++ content, rest)
  | None => None
  end.

(** [scanstring], strict: from just after the opening quote to the
    closing one; the decoded text and what follows it. *)
Fixpoint scanstring (s : string) : option (string * string) :=
  match s with
  | "" => None
  | String c r =>
      if Ascii.eqb c quote then Some ("", r)
      else if Ascii.eqb c backslash then
        match r with
        | "" => None
        | String e r1 =>
            if Ascii.eqb e "u" then
              match r1 with
              | String h1 (String h2 (String h3 (String h4 r2))) =>
                  match hex4 h1 h2 h3 h4 with
                  | None => None
                  | Some uni =>
                      if is_high_surrogate uni
                         && starts_with (String backslash "u") r2 then
                        match r2 with
                        | String _ (String _
                            (String g1 (String g2 (String g3 (String g4 r3))))) =>
                            match hex4 g1 g2 g3 g4 with
                            | None => None
                            | Some uni2 =>
                                if is_low_surrogate uni2
                                then prepend (chr (join_surrogates uni uni2))
                                             (scanstring r3)
                                else prepend (chr uni) (scanstring r2)
                            end
                        | _ => None
                        end
                      else prepend (chr uni) (scanstring r2)
                  end
              | _ => None
              end
            else
              match unescape e with
              | Some ch => prepend ch (scanstring r1)
              | None => None
              end
        end
      else if (nat_of_ascii c <? 32)%nat then None
      else prepend (String c "") (scanstring r)
  end.

Fixpoint span_digits (s : string) : string * string :=
  match s with
  | "" => ("", "")
  | String c r =>
      if is_digit c
      then let '(digits, rest) := span_digits r in (String c digits, rest)
      else ("", s)
  end.

(** The number pattern of the decoder: an optional minus sign, then 0
    or a digit from 1 to 9 followed by digits, then, each optional, a dot
    with digits and an exponent (e or E, an optional sign, digits).  Each
    part returns what it matched and what follows it. *)
Definition minus_part (s : string) : string * string :=
  match s with
  | "" => ("", s)
  | String c r => if Ascii.eqb c "-" then ("-", r) else ("", s)
  end.

Definition int_part (s : string) : option (string * string) :=
  match s with
  | "" => None
  | String c r =>
      if negb (is_digit c) then None
      else if Ascii.eqb c "0" then Some ("0", r)
      else let '(digits, rest) := span_digits r in Some (String c digits, rest)
  end.

Definition frac_part (s : string) : string * string :=
  match s with
  | "" => ("", s)
  | String c r =>
      if Ascii.eqb c "." then
        let '(digits, rest) := span_digits r in
        if String.eqb digits "" then ("", s) else (String c digits, rest)
      else ("", s)
  end.

Definition sign_part (s : string) : string * string :=
  match s with
  | "" => ("", s)
  | String c r =>
      if Ascii.eqb c "+" || Ascii.eqb c "-" then (String c "", r) else ("", s)
  end.

Definition exp_part (s : string) : string * string :=
  match s with
  | "" => ("", s)
  | String e r =>
      if Ascii.eqb e "e" || Ascii.eqb e "E" then
        let '(esign, r1) := sign_part r in
        let '(digits, rest) := span_digits r1 in
        if String.eqb digits "" then ("", s)
        else (String e (esign ++ digits), rest)
      else ("", s)
  end.

(** The literal of a number at the head of [s] and what follows it. *)
Definition match_number (s : string) : option (string * string) :=
  let '(sign, s1) := minus_part s in
  match int_part s1 with
  | None => None
  | Some (digits, s2) =>
      let '(frac, s3) := frac_part s2 in
      let '(exponent, s4) := exp_part s3 in
      Some (sign ++ digits ++ frac ++ exponent, s4)
  end.

Fixpoint digits_value (acc : Z) (digits : string) : Z :=
  match digits with
  | "" => acc
  | String c r => digits_value (10 * acc + digit_value c) r
  end.

Definition exponent_value (exponent : string) : Z :=
  match exponent with
  | "" => 0%Z
  | String _ (String "-" digits) => (- digits_value 0 digits)%Z
  | String _ (String "+" digits) => digits_value 0 digits
  | String _ digits => digits_value 0 digits
  end.

(** Whether the number of a literal is zero: [int] of it, or [float]
    of it when it has a fraction or an exponent.  [float] rounds to the
    nearest float, and to zero what is at most 2^-1075, half the least
    positive float. *)
Definition is_zero (lit : string) : bool :=
  let '(_, s1) := minus_part lit in
  match int_part s1 with
  | None => false
  | Some (digits, s2) =>
      let '(frac, s3) := frac_part s2 in
      let '(exponent, _) := exp_part s3 in
      let fraction := drop 1 frac in
      let mantissa := digits_value 0 (digits ++ fraction) in
      let e :=
        (exponent_value exponent - Z.of_nat (String.length fraction))%Z in
      (mantissa =? 0)%Z
      || ((e <? 0)%Z && (mantissa * 2 ^ 1075 <=? 10 ^ (- e))%Z)
  end.

(** A literal without fraction and exponent is read by [int], which
    refuses more than 4300 digits. *)
Fixpoint is_integer_literal (lit : string) : bool :=
  match lit with
  | "" => true
  | String c r => (is_digit c || Ascii.eqb c "-") && is_integer_literal r
  end.

Fixpoint digit_count (lit : string) : N :=
  match lit with
  | "" => 0%N
  | String c r => ((if is_digit c then 1 else 0) + digit_count r)%N
  end.

Definition number (s : string) : option (json * string) :=
  match match_number s with
  | Some (lit, rest) =>
      if is_integer_literal lit && (int_max_str_digits <? digit_count lit)%N
      then None
      else Some (JNumber lit, rest)
  | None => None
  end.

Definition literal (word : string) (v : json) (s : string)
  : option (json * string) :=
  if starts_with word s then Some (v, drop (String.length word) s) else None.

Definition first_of {A : Type} (a b : option A) : option A :=
  match a with
  | Some _ => a
  | None => b
  end.

(** [scan_once]: one value and what follows it.  [room] is the number
    of arrays and objects, one inside the other, that the scanner can
    still enter before [RecursionError].  [fuel] bounds the depth of the
    calls: a call for a nested value or for the next member or item
    reads at least one character, except the call for the first item of
    an array, which follows one that does; twice the length of the text
    is therefore never used up. *)
Fixpoint parse_value (fuel room : nat) (s : string) : option (json * string) :=
  match fuel with
  | O => None
  | S f =>
      match s with
      | "" => None
      | String c r =>
          if Ascii.eqb c quote then
            match scanstring r with
            | Some (x, rest) => Some (JString x, rest)
            | None => None
            end
          else if Ascii.eqb c "{" then
            match room with
            | O => None
            | S inner =>
                match skip_ws r with
                | "" => None
                | String c1 r1 =>
                    if Ascii.eqb c1 "}" then Some (JObject [], r1)
                    else if Ascii.eqb c1 quote
                    then parse_members f inner r1 []
                    else None
                end
            end
          else if Ascii.eqb c "[" then
            match room with
            | O => None
            | S inner =>
                match skip_ws r with
                | "" => None
                | String c1 r1 =>
                    if Ascii.eqb c1 "]" then Some (JArray [], r1)
                    else parse_items f inner (String c1 r1) []
                end
            end
          else
            first_of (literal "null" JNull s)
            (first_of (literal "true" (JBool true) s)
            (first_of (literal "false" (JBool false) s)
            (first_of (number s)
            (first_of (literal "NaN" (JNumber "NaN") s)
            (first_of (literal "Infinity" (JNumber "Infinity") s)
                      (literal "-Infinity" (JNumber "-Infinity") s))))))
      end
  end

(** The members of an object, from just after the opening quote of a
    name; [dict(pairs)] keeps the first place and the last value of a
    repeated name. *)
with parse_members (fuel room : nat) (s : string)
  (pairs : list (string * json)) : option (json * string) :=
  match fuel with
  | O => None
  | S f =>
      match scanstring s with
      | None => None
      | Some (key, r) =>
          match skip_ws r with
          | "" => None
          | String c r1 =>
              if negb (Ascii.eqb c ":") then None
              else
                match parse_value f room (skip_ws r1) with
                | None => None
                | Some (value, r2) =>
                    let pairs' := dict_set pairs key value in
                    match skip_ws r2 with
                    | "" => None
                    | String c2 r3 =>
                        if Ascii.eqb c2 "}" then Some (JObject pairs', r3)
                        else if Ascii.eqb c2 "," then
                          match skip_ws r3 with
                          | "" => None
                          | String c3 r4 =>
                              if Ascii.eqb c3 quote
                              then parse_members f room r4 pairs'
                              else None
                          end
                        else None
                    end
                end
          end
      end
  end

(** The items of an array, from the first character of an item. *)
with parse_items (fuel room : nat) (s : string) (values : list json)
  : option (json * string) :=
  match fuel with
  | O => None
  | S f =>
      match parse_value f room s with
      | None => None
      | Some (value, r) =>
          let values' := (values ++ [value])%list in
          match skip_ws r with
          | "" => None
          | String c r1 =>
              if Ascii.eqb c "]" then Some (JArray values', r1)
              else if Ascii.eqb c ","
              then parse_items f room (skip_ws r1) values'
              else None
          end
      end
  end.

(** How many arrays and objects, one inside the other, [json.load] can
    enter when [load_previous_state] calls it from [main]: the recursion
    limit is 1000, seven frames are in use (the module, [main],
    [load_previous_state], [load], [loads], [decode], [raw_decode]), and
    the scanner raises [RecursionError] when entering the next array or
    object would reach the limit. *)
Definition recursion_room : nat := 992.

(** [json.loads(s)], as [json.load] calls it for [load_previous_state]:
    [None] stands for an exception, [JSONDecodeError] for a text that is
    not JSON, [ValueError] for an integer of more than 4300 digits,
    [RecursionError] for too deep a nesting. *)
Definition loads (s : string) : option json :=
  if starts_with (bytes [239; 187; 191]) s then None
  else
    match parse_value (S (2 * String.length s)) recursion_room (skip_ws s) with
    | Some (v, rest) =>
        if String.eqb (skip_ws rest) "" then Some v else None
    | None => None
    end.

End Json.

(* ================================================================= *)
(** ** compare_and_notify *)

Definition CHECK_INTERVAL : Z := 600.

Definition TARGET_URL : string :=
  "https://www.ms-aurora.com/abashiri/reserves/new.php?ym=2026-02".

(** The webhook is a log of the messages posted to it; whether Slack
    accepts a message is not the script's concern (lines 33-38 only print
    the outcome, and no exception leaves the function). *)
Definition send_slack_notification (message : string) (slack : list string)
  : list string :=
  (slack ++ [message])%list.

(** [int(x.replace('2月', '').replace('日', ''))] *)
Definition day_number (x : string) : result Z :=
  PyStr.int (PyStr.replace "日" "" (PyStr.replace "2月" "" x)).

(** [sorted(l, key=...)] is stable: among equal keys the earlier element
    stays first. *)
Fixpoint insert_by_key (x : Z * string) (l : list (Z * string))
  : list (Z * string) :=
  match l with
  | [] => [x]
  | y :: rest =>
      if (fst x <=? fst y)%Z then x :: l else y :: insert_by_key x rest
  end.

Definition sort_by_key (l : list (Z * string)) : list (Z * string) :=
  fold_right insert_by_key [] l.

(** [sorted(status.keys(), key=lambda x: int(...))]: the keys are
    computed first, and one that is not a number raises. *)
Definition sorted_days (status : dict) : result (list string) :=
  decorated <- map_result (fun x => n <- day_number x ;; Return (n, x))
                          (keys status) ;;
  Return (map snd (sort_by_key decorated)).

(** [status in ['○', '△']] *)
Definition is_available (status : string) : bool :=
  String.eqb status "○" || String.eqb status "△".

Definition is_empty {A : Type} (l : list A) : bool :=
  match l with
  | [] => true
  | _ :: _ => false
  end.

(** [f"  • {day}: {status}"] *)
Definition available_line (day status : string) : string :=
  "  • " ++ day ++ ": " ++ status.

(** Lines 140-144. *)
Definition available_days (current_status : dict) : result (list string) :=
  days <- sorted_days current_status ;;
  for_each (fun acc day =>
              status <- dict_item current_status day ;;
              if is_available status
              then Return (acc ++ [available_line day status])%list
              else Return acc)
           days [].

Definition startup_message (available_days : list string) : string :=
  "🚢 *オーロラ号監視を開始しました*" ++ PyStr.nl ++ PyStr.nl
  ++ "📅 *2026年2月の現在の空き状況:*" ++ PyStr.nl
  ++ (if is_empty available_days
      then "  現在空きのある日はありません（全て満席）"
      else PyStr.join PyStr.nl available_days)
  ++ PyStr.nl ++ PyStr.nl ++ "⏰ "
  ++ PyStr.of_int (CHECK_INTERVAL / 60) ++ "分おきに監視します".

(** [f"{emoji} *{day}*: {previous} → {current}"] *)
Definition change_line (day previous current : string) : string :=
  let emoji := if is_available current then "🎉" else "😢" in
  emoji ++ " *" ++ day ++ "*: " ++ previous ++ " → " ++ current.

(** [bool(v)] for what [load_previous_state] returned: [not
    previous_status] is its negation. *)
Definition truthy (v : json) : bool :=
  match v with
  | JNull => false
  | JBool b => b
  | JNumber literal => negb (Json.is_zero literal)
  | JString s => negb (String.eqb s "")
  | JArray items => negb (is_empty items)
  | JObject members => negb (is_empty members)
  end.

(** [previous_status.get(day, '×')]: of the values [json.load] returns,
    only a dict has [get]. *)
Definition get_previous (previous_status : json) (day : string)
  : result json :=
  match previous_status with
  | JObject members => Return (dict_get members day (JString "×"))
  | _ => Raise AttributeError
  end.

(** [current != previous], for the string [current]: a value that is
    not a string differs from it. *)
Definition differs (current : string) (previous : json) : bool :=
  match previous with
  | JString p => negb (String.eqb current p)
  | _ => true
  end.

Section Comparison.

(** [str(v)] for a value of the state file that is not a string: the
    text Python prints for [None], a bool, a number, a list or a dict. *)
Variable py_str : json -> string.

(** [f"{previous}"] *)
Definition format_value (previous : json) : string :=
  match previous with
  | JString p => p
  | _ => py_str previous
  end.

(** Lines 156-163. *)
Definition detect_changes (current_status : dict) (previous_status : json)
  : result (list string) :=
  days <- sorted_days current_status ;;
  for_each (fun changes day =>
              current <- dict_item current_status day ;;
              previous <- get_previous previous_status day ;;
              if differs current previous
              then Return (changes
                           ++ [change_line day (format_value previous) current])%list
              else Return changes)
           days [].

Definition change_message (changes : list string) : string :=
  "🚨 *オーロラ号の空き状況が変わりました！*" ++ PyStr.nl ++ PyStr.nl
  ++ PyStr.join PyStr.nl changes
  ++ PyStr.nl ++ PyStr.nl ++ "🔗 予約ページ: " ++ TARGET_URL.

Definition compare_and_notify (current_status : dict) (previous_status : json)
  (slack : list string) : result (list string) :=
  if negb (truthy previous_status) then
    available <- available_days current_status ;;
    Return (send_slack_notification (startup_message available) slack)
  else
    changes <- detect_changes current_status previous_status ;;
    if negb (is_empty changes)
    then Return (send_slack_notification (change_message changes) slack)
    else Return slack.

End Comparison.

(* ================================================================= *)
(** ** The state file *)

(** [STATE_FILE] on disk: not there; there but [open] or the decoding of
    its bytes raises; or there with a text. *)
Inductive file : Type :=
| NoFile
| Unreadable
| Text (content : string).

(** Lines 112-120. *)
Definition load_previous_state (state_file : file) : json :=
  match state_file with
  | NoFile => JObject []
  | Unreadable => JObject []
  | Text content =>
      match Json.loads content with
      | Some state => state
      | None => JObject []
      end
  end.

(** What the disk does with a write: it takes it, or it raises and
    leaves [remains] behind. *)
Inductive disk : Type :=
| WriteOk
| WriteFails (remains : file).

(** Lines 123-129: an exception is printed, nothing else. *)
Definition save_current_state (d : disk) (state : dict) (state_file : file)
  : file :=
  match d with
  | WriteOk => Text (Json.dumps state)
  | WriteFails remains => remains
  end.

(* ================================================================= *)
(** ** One turn of the loop of main *)

Record world : Type := mk_world {
  slack : list string;     (* the messages posted so far *)
  state_file : file
}.

(** How a turn ends: the loop sleeps and goes on, or an exception
    reaches line 217 and the script stops. *)
Inductive turn : Type :=
| Sleeps (w : world)
| Stops (e : exn) (w : world).

Section Loop.

Variable py_str : json -> string.

(** Lines 194-213. *)
Definition cycle (fetched : result response) (d : disk) (w : world) : turn :=
  match get_availability_status fetched with
  | Some current_status =>
      if is_empty current_status then Sleeps w
      else
        let previous_status := load_previous_state (state_file w) in
        match compare_and_notify py_str current_status previous_status
                (slack w) with
        | Raise e => Stops e w
        | Return posted =>
            Sleeps {| slack := posted;
                      state_file :=
                        save_current_state d current_status (state_file w) |}
        end
  | None => Sleeps w
  end.

(** Lines 192-218: the loop of [main], for the turns the environment
    lets it make before it interrupts the script.  Each turn comes with
    what the fetch and the disk do in it.  The loop goes on after a turn
    that sleeps and ends at the first exception; [Sleeps w] at the end
    of the turns is the script interrupted in its sleep. *)
Fixpoint main_loop (turns : list (result response * disk)) (w : world) : turn :=
  match turns with
  | [] => Sleeps w
  | (fetched, d) :: rest =>
      match cycle fetched d w with
      | Sleeps w' => main_loop rest w'
      | Stops e w' => Stops e w'
      end
  end.

(** Lines 175-218: without a webhook address (the variable is not set,
    or empty) the script returns at once. *)
Definition main (SLACK_WEBHOOK_URL : option string)
  (turns : list (result response * disk)) (w : world) : turn :=
  match SLACK_WEBHOOK_URL with
  | None => Sleeps w
  | Some url => if String.eqb url "" then Sleeps w else main_loop turns w
  end.

End Loop.

(* ================================================================= *)
(** ** The vocabulary of the specification *)

(** The days of the target month, February 2026. *)
Definition days : list Z := map Z.of_nat (seq 1 28).

(** The key the script writes for day [i]. *)
Definition day_key (i : Z) : string := day_label (PyStr.of_int i).

Definition day_keys : list string := map day_key days.

(** The three statuses of the specification, as the symbols the script
    writes for them: [Full], [Limited], and [Available] for Open. *)
Definition Full : string := "×".
Definition Limited : string := "△".
Definition Available : string := "○".

Definition is_status (s : string) : Prop :=
  s = Full \/ s = Limited \/ s = Available.

(** A DayStatusMap: one entry for every day of the month and for nothing
    else, in any order, each holding one of the three symbols. *)
Definition DayStatusMap (m : dict) : Prop :=
  Permutation (keys m) day_keys /\ Forall (fun kv => is_status (snd kv)) m.

(** The hyperlink the script looks at in a cell: the first one, if its
    address has a date parameter. *)
Definition cell_link (cell : node) : option node :=
  match find_tag "a" cell with
  | Some link =>
      if PyStr.contains "ynj=" (get link "href" "") then Some link else None
  | None => None
  end.

(** The text after the last hyphen of the date parameter. *)
Definition href_day (href : string) : string :=
  last (PyStr.split "-"
          (hd "" (PyStr.split "#" (nth 1 (PyStr.split "ynj=" href) "")))) "".

Definition link_day (link : node) : string := href_day (get link "href" "").

(** The emphasized text of a link. *)
Definition emphasized (link : node) : option string :=
  match find_tag "em" link with
  | Some em_tag => Some (get_text_strip em_tag)
  | None => None
  end.

(** The marker a link bears. *)
Definition marker (link : node) : option string :=
  match emphasized link with
  | Some status_text =>
      if PyStr.contains "○" status_text then Some Available
      else if PyStr.contains "△" status_text then Some Limited
      else None
  | None => None
  end.

(** The entry a cell writes into the map, if it writes one. *)
Definition cell_write (cell : node) : option (string * string) :=
  match cell_link cell with
  | Some link =>
      match marker link with
      | Some status => Some (day_label (link_day link), status)
      | None => None
      end
  | None => None
  end.

Definition apply_write (availability : dict) (cell : node) : dict :=
  match cell_write cell with
  | Some (k, v) => dict_set availability k v
  | None => availability
  end.

(** A transition of the specification: a day and its two statuses. *)
Record transition : Type := mk_transition {
  t_day : Z;
  t_previous : string;
  t_current : string
}.

Definition render (t : transition) : string :=
  change_line (day_key (t_day t)) (t_previous t) (t_current t).

(** The status a map gives a day, with the default of line 159. *)
Definition status_of (m : dict) (i : Z) : string := dict_get m (day_key i) Full.

Definition transition_of (current previous : dict) (i : Z) : list transition :=
  if String.eqb (status_of current i) (status_of previous i) then []
  else [mk_transition i (status_of previous i) (status_of current i)].

(** The transitions between two maps, day by day. *)
Definition transitions (current previous : dict) : list transition :=
  flat_map (transition_of current previous) days.

Definition snapshot_line (current : dict) (i : Z) : list string :=
  if is_available (status_of current i)
  then [available_line (day_key i) (status_of current i)]
  else [].

(** The lines of the startup snapshot, day by day. *)
Definition snapshot (current : dict) : list string :=
  flat_map (snapshot_line current) days.

(** The number of a key, 0 where [int] raises. *)
Definition day_index (k : string) : Z :=
  match day_number k with
  | Return n => n
  | Raise _ => 0%Z
  end.

(** The transitions of one day. *)
Definition on_day (i : Z) (t : transition) : bool := (t_day t =? i)%Z.

(** The lines of the startup snapshot, as a selection of the days. *)
Definition snapshot_days (current : dict) : list Z :=
  filter (fun i => is_available (status_of current i)) days.

(** No state to compare with: no file, a file that cannot be read, or a
    text that is not JSON. *)
Definition absent (state : file) : Prop :=
  state = NoFile \/ state = Unreadable \/
  exists text, state = Text text /\ Json.loads text = None.



(** A map of statuses as [json.load] gives it back. *)
Definition status_object (m : dict) : json :=
  JObject (map (fun kv => (fst kv, JString (snd kv))) m).

(** The map of statuses a value of the state file stands for: an
    object whose values are all strings. *)
Fixpoint as_status_dict_members (members : list (string * json))
  : option dict :=
  match members with
  | [] => Some []
  | (k, JString v) :: rest =>
      match as_status_dict_members rest with
      | Some d => Some ((k, v) :: d)
      | None => None
      end
  | _ :: _ => None
  end.

Definition as_status_dict (state : json) : option dict :=
  match state with
  | JObject members => as_status_dict_members members
  | _ => None
  end.

(** One more pair for [dict(pairs)]. *)
Definition put (pairs : list (string * json)) (kv : string * string)
  : list (string * json) :=
  dict_set pairs (fst kv) (JString (snd kv)).

(** The text [json.dump] writes for an object, from just after the
    opening quote of the name of a member to the closing brace. *)
Fixpoint members_text (k v : string) (rest : list (string * string)) : string :=
  Json.escape k
  ++ String Json.quote
       (": " ++ String Json.quote
          (Json.escape v
           ++ String Json.quote
                match rest with
                | [] => PyStr.nl ++ "}"
                | (k', v') :: rest' =>
                    "," ++ PyStr.nl ++ "  "
                    ++ String Json.quote (members_text k' v' rest')
                end)).

(** The order of the comparison: by the number of the key. *)
Definition by_number (a b : string) : Prop := (day_index a <= day_index b)%Z.

(** The entries the cells of a table write, in the order of the
    cells. *)
Definition write_of (cell : node) : list (string * string) :=
  match cell_write cell with
  | Some kv => [kv]
  | None => []
  end.

Definition writes (cells : list node) : list (string * string) :=
  flat_map write_of cells.

(** A key the comparison can sort: [int] accepts what is left of it. *)
Definition numbered (k : string) : Prop := exists n, day_number k = Return n.

(** *** The texts of the messages

    The lines and the messages the script posts, written out character
    by character. *)

Definition newline : string := String (ascii_of_nat 10) "".

(** The decimal numeral of a day. *)
Definition numeral (i : Z) : string := NilZero.string_of_int (Z.to_int i).

(** A status that shows seats. *)
Definition gained (status : string) : bool :=
  String.eqb status "○" || String.eqb status "△".

Definition change_line_text (key previous current : string) : string :=
  (if gained current then "🎉" else "😢")
  ++ " *" ++ key ++ "*: " ++ previous ++ " → " ++ current.

(** The line of a transition in a change message. *)
Definition transition_text (t : transition) : string :=
  change_line_text ("2月" ++ numeral (t_day t) ++ "日")
                   (t_previous t) (t_current t).

Definition change_text (lines : list string) : string :=
  "🚨 *オーロラ号の空き状況が変わりました！*" ++ newline ++ newline
  ++ String.concat newline lines
  ++ newline ++ newline
  ++ "🔗 予約ページ: "
  ++ "https://www.ms-aurora.com/abashiri/reserves/new.php?ym=2026-02".

Definition listing_text (key status : string) : string :=
  "  • " ++ key ++ ": " ++ status.

Definition startup_text (lines : list string) : string :=
  "🚢 *オーロラ号監視を開始しました*" ++ newline ++ newline
  ++ "📅 *2026年2月の現在の空き状況:*" ++ newline
  ++ match lines with
     | [] => "  現在空きのある日はありません（全て満席）"
     | _ :: _ => String.concat newline lines
     end
  ++ newline ++ newline ++ "⏰ 10分おきに監視します".

(** The days a map shows open or limited, in ascending order, and the
    line of the startup snapshot for such a day. *)
Definition open_days (current : dict) : list Z :=
  filter (fun i => gained (status_of current i)) days.

Definition day_listing (current : dict) (i : Z) : string :=
  listing_text ("2月" ++ numeral i ++ "日") (status_of current i).

(** The change line of a key of the current map against the members of
    a stored object, if its status differs from the stored value ([×]
    when the object has no such key; a stored value that is not a string
    always differs, and [py_str] gives its text). *)
Definition change_of (py_str : json -> string) (current : dict)
  (members : list (string * json)) (k : string) : list string :=
  match dict_find current k with
  | Some c =>
      match dict_get members k (JString "×") with
      | JString p => if String.eqb c p then [] else [change_line_text k p c]
      | v => [change_line_text k (py_str v) c]
      end
  | None => []
  end.

(** The snapshot line of a key of the current map, if it is available. *)
Definition listing_of (current : dict) (k : string) : list string :=
  match dict_find current k with
  | Some c => if gained c then [listing_text k c] else []
  | None => []
  end.

(** Nothing is printed for a value that is not a string: the scenarios
    store strings only. *)
Definition unprinted (v : json) : string := "".

(* ================================================================= *)
(** ** Pages and maps of the scenarios *)

(** A calendar table with the given cells, and a page that has it for
    third table. *)
Definition calendar_table (cells : list node) : node :=
  Tag "table" [] [Tag "tr" [] cells].

Definition page (cells : list node) : node :=
  Tag "[document]" []
    [Tag "html" []
       [Tag "body" []
          [Tag "table" [] [Tag "tr" [] [Tag "td" [] [NavigableString "menu"]]];
           Tag "table" [] [];
           calendar_table cells]]].

(** A calendar cell: a link with the given address around the number of
    the day and an emphasized mark. *)
Definition link_cell (href day mark : string) : node :=
  Tag "td" []
    [Tag "a" [("href", href)]
       [NavigableString day; Tag "em" [] [NavigableString mark]]].

Definition day_href (day : string) : string :=
  "new.php?ym=2026-02&ynj=2026-2-" ++ day ++ "#calendar".


Definition day_cell (day mark : string) : node :=
  link_cell (day_href day) day mark.

(** A cell of a day that is not on sale: the number, no link. *)
Definition plain_cell (day : string) : node :=
  Tag "td" [] [NavigableString day].

Definition page_without_markers : node :=
  page [plain_cell "1"; day_cell "2" "-"; plain_cell "3"].

Definition page_day5_open : node :=
  page [plain_cell "4"; day_cell "5" "○"; plain_cell "6"].

Definition page_day5_twice : node :=
  page [day_cell "5" "○"; day_cell "5" "△"].






Definition malformed_cell : node :=
  link_cell "new.php?ynj=soon" "5" "○".

Definition page_malformed : node :=
  page [day_cell "5" "△"; malformed_cell].

Definition page_two_tables : node :=
  Tag "[document]" [] [Tag "table" [] []; Tag "table" [] [day_cell "5" "○"]].

Definition day5_open : dict := dict_set initial_availability (day_key 5) Available.

Definition previous_5_6 : dict := [(day_key 5, Full); (day_key 6, Full)].

Ltac split_leb :=
  repeat match goal with
         | |- context [(?a <=? ?b)%Z] =>
             destruct (Z.leb_spec a b); try lia; cbn [insert_by_key]
         end.

(* ================================================================= *)
(** * Properties *)

(** ** Strings, lists and dicts *)

Lemma split_go_not_nil sep k s : PyStr.split_go sep k s <> [].
Proof.
  revert k; induction s as [|c r IH]; intros k; simpl; [discriminate|].
  destruct k; [|apply IH].
  destruct (PyStr.starts_with sep (String c r)); [discriminate|].
  destruct (PyStr.split_go sep 0 r); discriminate.
Qed.

Lemma contains_split_length a p s :
  PyStr.contains (String a p) s = true ->
  (2 <= List.length (PyStr.split (String a p) s))%nat.
Proof.
  unfold PyStr.split.
  induction s as [|c r IH]; intros H.
  - simpl in H. discriminate.
  - cbn [PyStr.contains] in H. cbn [PyStr.split_go].
    destruct (PyStr.starts_with (String a p) (String c r)) eqn:E.
    + pose proof (split_go_not_nil (String a p)
                    (String.length (String a p) - 1) r) as N.
      destruct (PyStr.split_go (String a p) (String.length (String a p) - 1) r);
        [congruence | simpl; lia].
    + simpl in H. specialize (IH H).
      destruct (PyStr.split_go (String a p) 0 r); simpl in *; lia.
Qed.

Lemma item_0 {A : Type} (l : list A) (d : A) :
  l <> [] -> item l 0 = Return (hd d l).
Proof. destruct l; [congruence | reflexivity]. Qed.

Lemma item_1 {A : Type} (l : list A) (d : A) :
  (2 <= List.length l)%nat -> item l 1 = Return (nth 1 l d).
Proof. destruct l as [|x [|y l]]; simpl; intros; try lia. reflexivity. Qed.

Lemma item_2 {A : Type} (l : list A) (x : A) :
  nth_error l 2 = Some x -> item l 2 = Return x.
Proof.
  intros H. unfold item. cbn [Z.ltb Z.compare]. cbv iota.
  change (Z.to_nat 2) with 2%nat. rewrite H. reflexivity.
Qed.

Lemma item_last {A : Type} (l : list A) (d : A) :
  l <> [] -> item l (-1) = Return (last l d).
Proof.
  intros N. unfold item.
  destruct (exists_last N) as [l' [x ->]].
  rewrite last_last, length_app. simpl List.length.
  change (-1 <? 0)%Z with true. cbv iota.
  replace (Z.of_nat (List.length l' + 1) + -1)%Z
    with (Z.of_nat (List.length l')) by lia.
  destruct (Z.ltb_spec (Z.of_nat (List.length l')) 0); [lia|].
  rewrite Nat2Z.id, nth_error_app2 by lia.
  rewrite Nat.sub_diag. reflexivity.
Qed.

Section DictFacts.
Context {V : Type}.
Implicit Types (d : list (string * V)) (k : string) (v : V).

Lemma dict_find_set d k v k' :
  dict_find (dict_set d k v) k' =
  if String.eqb k k' then Some v else dict_find d k'.
Proof.
  induction d as [|[k0 v0] d IH]; simpl.
  - rewrite String.eqb_sym. reflexivity.
  - destruct (String.eqb_spec k0 k) as [->|N]; simpl.
    + destruct (String.eqb k k'); reflexivity.
    + rewrite IH. destruct (String.eqb_spec k0 k') as [->|N'];
        [|reflexivity].
      destruct (String.eqb_spec k k'); [congruence | reflexivity].
Qed.

Lemma dict_find_none d k : dict_find d k = None <-> ~ In k (keys d).
Proof.
  induction d as [|[k0 v0] d IH]; simpl; [tauto|].
  destruct (String.eqb_spec k0 k) as [->|N].
  - split; [discriminate | tauto].
  - rewrite IH. tauto.
Qed.

Lemma dict_find_some d k v : dict_find d k = Some v -> In (k, v) d.
Proof.
  induction d as [|[k0 v0] d IH]; simpl; [discriminate|].
  destruct (String.eqb_spec k0 k) as [->|N].
  - intros [= ->]. now left.
  - intros H. right. now apply IH.
Qed.

Lemma dict_find_in d k v :
  NoDup (keys d) -> In (k, v) d -> dict_find d k = Some v.
Proof.
  induction d as [|[k0 v0] d IH]; simpl; [tauto|].
  intros ND [E|I].
  - injection E as -> ->. now rewrite String.eqb_refl.
  - inversion ND as [|? ? NI ND']; subst.
    destruct (String.eqb_spec k0 k) as [->|N].
    + exfalso. apply NI. change k with (fst (k, v)). now apply in_map.
    + now apply IH.
Qed.

Lemma dict_set_absent d k v :
  dict_find d k = None -> dict_set d k v = (d ++ [(k, v)])%list.
Proof.
  induction d as [|[k0 v0] d IH]; simpl; [reflexivity|].
  destruct (String.eqb k0 k); [discriminate|].
  intros H. now rewrite IH.
Qed.

Lemma keys_set_present d k v :
  dict_find d k <> None -> keys (dict_set d k v) = keys d.
Proof.
  induction d as [|[k0 v0] d IH]; simpl; [congruence|].
  destruct (String.eqb_spec k0 k) as [->|N]; simpl; [reflexivity|].
  intros H. now rewrite IH.
Qed.

Lemma keys_set d k v :
  keys (dict_set d k v) =
  match dict_find d k with
  | Some _ => keys d
  | None => (keys d ++ [k])%list
  end.
Proof.
  destruct (dict_find d k) eqn:E.
  - apply keys_set_present. congruence.
  - rewrite dict_set_absent by assumption.
    unfold keys. now rewrite map_app.
Qed.

Lemma NoDup_keys_set d k v : NoDup (keys d) -> NoDup (keys (dict_set d k v)).
Proof.
  intros ND. rewrite keys_set. destruct (dict_find d k) eqn:E; [assumption|].
  apply dict_find_none in E.
  apply NoDup_app; [assumption | repeat constructor; simpl; tauto |].
  intros x I [<-|[]]. contradiction.
Qed.

Lemma in_keys_set d k v k' :
  In k' (keys (dict_set d k v)) <-> k' = k \/ In k' (keys d).
Proof.
  rewrite keys_set. destruct (dict_find d k) eqn:E.
  - split; [tauto|]. intros [->|I]; [|assumption].
    destruct (in_dec string_dec k (keys d)) as [I|N]; [assumption|].
    apply dict_find_none in N. congruence.
  - rewrite in_app_iff. simpl. intuition congruence.
Qed.

End DictFacts.

(* ================================================================= *)
(** ** The days of the month *)

Lemma initial_availability_eq :
  initial_availability = map (fun i => (day_key i, Full)) days.
Proof. vm_compute. reflexivity. Qed.

Lemma keys_initial : keys initial_availability = day_keys.
Proof. vm_compute. reflexivity. Qed.

Lemma day_number_day_key i : In i days -> day_number (day_key i) = Return i.
Proof.
  revert i. apply Forall_forall. unfold days. cbn [seq map].
  repeat (constructor; [vm_compute; reflexivity|]). constructor.
Qed.

Lemma NoDup_days : NoDup days.
Proof.
  unfold days. apply Finite.Injective_map_NoDup_in; [|apply seq_NoDup].
  intros x y _ _. apply Nat2Z.inj.
Qed.

Lemma day_key_inj i j : In i days -> In j days -> day_key i = day_key j -> i = j.
Proof.
  intros Hi Hj E. apply day_number_day_key in Hi, Hj.
  rewrite E in Hi. congruence.
Qed.

Lemma NoDup_day_keys : NoDup day_keys.
Proof.
  unfold day_keys.
  apply Finite.Injective_map_NoDup_in; [exact day_key_inj | exact NoDup_days].
Qed.

Lemma find_initial i : In i days -> dict_find initial_availability (day_key i) = Some Full.
Proof.
  intros Hi. apply dict_find_in.
  - rewrite keys_initial. apply NoDup_day_keys.
  - rewrite initial_availability_eq.
    apply (in_map (fun i => (day_key i, Full))). exact Hi.
Qed.

(* ================================================================= *)
(** ** Extraction *)

Lemma cell_step_spec availability cell :
  cell_step availability cell = Return (apply_write availability cell).
Proof.
  unfold cell_step, apply_write, cell_write, cell_link, marker, emphasized,
    link_day, href_day.
  destruct (find_tag "a" cell) as [link|]; [|reflexivity].
  destruct (PyStr.contains "ynj=" (get link "href" "")) eqn:C; [|reflexivity].
  rewrite (item_1 _ "") by (apply contains_split_length; exact C).
  cbn [bind].
  rewrite (item_0 _ "") by apply split_go_not_nil.
  cbn [bind].
  rewrite (item_last _ "") by apply split_go_not_nil.
  cbn [bind].
  destruct (find_tag "em" link) as [em_tag|]; [|reflexivity].
  destruct (PyStr.contains "○" (get_text_strip em_tag)); [reflexivity|].
  destruct (PyStr.contains "△" (get_text_strip em_tag)); reflexivity.
Qed.

Lemma for_each_cell_step cells availability :
  for_each cell_step cells availability =
  Return (fold_left apply_write cells availability).
Proof.
  revert availability. induction cells as [|c cells IH]; intros a; simpl;
    [reflexivity|].
  rewrite cell_step_spec. cbn [bind]. apply IH.
Qed.

Lemma extract_calendar_found soup calendar :
  nth_error (find_all "table" soup) 2 = Some calendar ->
  extract_calendar soup =
  Return (Some (fold_left apply_write (find_all "td" calendar)
                          initial_availability)).
Proof.
  intros H. unfold extract_calendar.
  assert (L : (List.length (find_all "table" soup) <? 3)%nat = false).
  { apply Nat.ltb_ge.
    assert (N : nth_error (find_all "table" soup) 2 <> None) by congruence.
    apply nth_error_Some in N. lia. }
  rewrite L, (item_2 _ _ H). cbn [bind].
  rewrite for_each_cell_step. reflexivity.
Qed.

Lemma third_table soup :
  (3 <= List.length (find_all "table" soup))%nat ->
  exists calendar, nth_error (find_all "table" soup) 2 = Some calendar.
Proof.
  intros H. destruct (nth_error (find_all "table" soup) 2) eqn:E;
    [eauto|]. apply nth_error_None in E. lia.
Qed.


Lemma fold_no_write cells availability :
  (forall c, In c cells -> cell_write c = None) ->
  fold_left apply_write cells availability = availability.
Proof.
  revert availability. induction cells as [|c cells IH]; intros a H; simpl;
    [reflexivity|].
  unfold apply_write at 2. rewrite (H c) by now left.
  apply IH. intros c' I. apply H. now right.
Qed.

Lemma keys_fold_incl cells availability k :
  In k (keys availability) ->
  In k (keys (fold_left apply_write cells availability)).
Proof.
  revert availability. induction cells as [|c cells IH]; intros a H; simpl;
    [assumption|].
  apply IH. unfold apply_write. destruct (cell_write c) as [[k' v']|];
    [|assumption].
  apply in_keys_set. now right.
Qed.

Lemma NoDup_keys_fold cells availability :
  NoDup (keys availability) ->
  NoDup (keys (fold_left apply_write cells availability)).
Proof.
  revert availability. induction cells as [|c cells IH]; intros a H; simpl;
    [assumption|].
  apply IH. unfold apply_write. destruct (cell_write c) as [[k' v']|];
    [|assumption].
  now apply NoDup_keys_set.
Qed.



(* ================================================================= *)
(** ** Sorting the days *)

Lemma insert_by_key_comm x y l :
  fst x <> fst y ->
  insert_by_key x (insert_by_key y l) = insert_by_key y (insert_by_key x l).
Proof.
  intros N. induction l as [|z l IH]; cbn [insert_by_key]; split_leb;
    try reflexivity.
  now rewrite IH.
Qed.

Lemma sort_by_key_perm l l' :
  Permutation l l' -> NoDup (map fst l) -> sort_by_key l = sort_by_key l'.
Proof.
  induction 1 as [|x l l' P IH|x y l|l l' l'' P IH P' IH']; intros ND.
  - reflexivity.
  - simpl. inversion ND; subst. now rewrite IH.
  - simpl. apply insert_by_key_comm.
    inversion ND as [|? ? NI ND']; subst. simpl in NI. intros E. apply NI.
    now left.
  - rewrite IH by assumption. apply IH'.
    apply (Permutation_NoDup (Permutation_map fst P) ND).
Qed.

Lemma sort_by_key_sorted l :
  StronglySorted (fun a b => (fst a < fst b)%Z) l -> sort_by_key l = l.
Proof.
  induction 1 as [|x l S IH F]; [reflexivity|].
  simpl. rewrite IH. destruct l as [|y l]; [reflexivity|].
  simpl. inversion F as [|? ? L F']; subst.
  destruct (Z.leb_spec (fst x) (fst y)); [reflexivity | lia].
Qed.

Lemma map_result_total {A B : Type} (f : A -> result B) (g : A -> B) l :
  (forall x, In x l -> f x = Return (g x)) ->
  map_result f l = Return (map g l).
Proof.
  induction l as [|x l IH]; intros H; simpl; [reflexivity|].
  rewrite (H x) by now left. cbn [bind].
  rewrite IH by (intros y I; apply H; now right). reflexivity.
Qed.

Lemma day_index_day_key i : In i days -> day_index (day_key i) = i.
Proof. intros H. unfold day_index. now rewrite day_number_day_key. Qed.

Lemma days_sorted :
  StronglySorted (fun a b : Z * string => (fst a < fst b)%Z)
                 (map (fun i => (i, day_key i)) days).
Proof.
  apply Sorted_StronglySorted.
  - intros a b c. apply Z.lt_trans.
  - unfold days. cbn [seq map].
    repeat (apply Sorted_cons; [|first [apply HdRel_nil
                                       | apply HdRel_cons; reflexivity]]).
    apply Sorted_nil.
Qed.

Lemma days_increasing : StronglySorted Z.lt days.
Proof.
  apply Sorted_StronglySorted.
  - intros a b c. apply Z.lt_trans.
  - unfold days. cbn [seq map].
    repeat (apply Sorted_cons; [|first [apply HdRel_nil
                                       | apply HdRel_cons; reflexivity]]).
    apply Sorted_nil.
Qed.

(** A map with the days of the month for keys is read in the order of
    the days, whatever its own order. *)
Lemma sorted_days_spec m :
  Permutation (keys m) day_keys -> sorted_days m = Return day_keys.
Proof.
  intros P. unfold sorted_days.
  assert (K : forall k, In k (keys m) -> exists i, In i days /\ k = day_key i).
  { intros k I. apply (Permutation_in _ P) in I.
    apply in_map_iff in I as [i [E I]]. eauto. }
  rewrite (map_result_total _ (fun k => (day_index k, k))).
  2:{ intros k I. destruct (K k I) as [i [Hi ->]].
      rewrite day_number_day_key, day_index_day_key by assumption.
      reflexivity. }
  cbn [bind]. f_equal.
  assert (D : map (fun k => (day_index k, k)) day_keys
              = map (fun i => (i, day_key i)) days).
  { unfold day_keys. rewrite map_map. apply map_ext_in.
    intros i Hi. now rewrite day_index_day_key. }
  rewrite (sort_by_key_perm _ (map (fun k => (day_index k, k)) day_keys)).
  - rewrite D, (sort_by_key_sorted _ days_sorted), map_map. reflexivity.
  - now apply Permutation_map.
  - rewrite map_map. cbn [fst].
    apply (Permutation_NoDup
             (Permutation_sym (Permutation_map day_index P))).
    replace (map day_index day_keys) with days; [apply NoDup_days|].
    unfold day_keys. rewrite map_map. symmetry.
    rewrite <- (map_id days) at 2. apply map_ext_in.
    intros i Hi. now apply day_index_day_key.
Qed.

(* ================================================================= *)
(** ** The two loops of compare_and_notify *)

Lemma for_each_collect {A B : Type} (body : list B -> A -> result (list B))
  (g : A -> list B) (l : list A) :
  (forall acc x, In x l -> body acc x = Return (acc ++ g x)%list) ->
  forall acc, for_each body l acc = Return (acc ++ flat_map g l)%list.
Proof.
  induction l as [|x l IH]; intros H acc; simpl.
  - now rewrite app_nil_r.
  - rewrite (H acc x) by now left. cbn [bind].
    rewrite IH by (intros acc' y I; apply H; now right).
    now rewrite app_assoc.
Qed.

Lemma flat_map_map {A B C : Type} (f : A -> B) (g : B -> list C) l :
  flat_map g (map f l) = flat_map (fun x => g (f x)) l.
Proof. induction l as [|x l IH]; simpl; [reflexivity | now rewrite IH]. Qed.

Lemma flat_map_ext_on {A B : Type} (f g : A -> list B) l :
  (forall x, In x l -> f x = g x) -> flat_map f l = flat_map g l.
Proof.
  induction l as [|x l IH]; intros H; simpl; [reflexivity|].
  rewrite (H x) by now left.
  rewrite IH by (intros y I; apply H; now right). reflexivity.
Qed.

Lemma map_flat_map {A B C : Type} (f : A -> list B) (g : B -> C) l :
  map g (flat_map f l) = flat_map (fun x => map g (f x)) l.
Proof.
  induction l as [|x l IH]; simpl; [reflexivity|].
  now rewrite map_app, IH.
Qed.

Lemma dict_item_day m i :
  Permutation (keys m) day_keys -> In i days ->
  dict_item m (day_key i) = Return (status_of m i).
Proof.
  intros P Hi. unfold dict_item, status_of, dict_get.
  destruct (dict_find m (day_key i)) eqn:E; [reflexivity|].
  exfalso. apply dict_find_none in E. apply E.
  apply (Permutation_in _ (Permutation_sym P)).
  unfold day_keys. now apply in_map.
Qed.

(** *** A stored map of statuses

    What the comparison does with the state the script itself writes,
    an object whose values are strings. *)

Lemma for_each_ext {A S : Type} (f g : S -> A -> result S) l :
  (forall s x, f s x = g s x) ->
  forall s, for_each f l s = for_each g l s.
Proof.
  intros E. induction l as [|x l IH]; intros s; simpl; [reflexivity|].
  rewrite E. destruct (g s x); cbn [bind]; [apply IH | reflexivity].
Qed.

Lemma dict_find_object m k :
  dict_find (map (fun kv => (fst kv, JString (snd kv))) m) k
  = option_map JString (dict_find m k).
Proof.
  induction m as [|[k' v] m IH]; [reflexivity|]. cbn [map dict_find fst snd].
  destruct (String.eqb k' k); [reflexivity | exact IH].
Qed.

Lemma get_previous_object m k :
  get_previous (status_object m) k = Return (JString (dict_get m k "×")).
Proof.
  unfold get_previous, status_object, dict_get. rewrite dict_find_object.
  now destruct (dict_find m k).
Qed.

Lemma truthy_object m : truthy (status_object m) = negb (is_empty m).
Proof. now destruct m. Qed.

Lemma detect_changes_object py_str current previous :
  detect_changes py_str current (status_object previous)
  = (days <- sorted_days current ;;
     for_each (fun changes day =>
                 c <- dict_item current day ;;
                 let p := dict_get previous day "×" in
                 if negb (String.eqb c p)
                 then Return (changes ++ [change_line day p c])%list
                 else Return changes)
              days []).
Proof.
  unfold detect_changes. destruct (sorted_days current) as [l|e];
    cbn [bind]; [|reflexivity].
  apply for_each_ext. intros changes day.
  destruct (dict_item current day) as [c|e]; cbn [bind]; [|reflexivity].
  rewrite get_previous_object. reflexivity.
Qed.

Lemma compare_object py_str current previous posted :
  compare_and_notify py_str current (status_object previous) posted
  = if is_empty previous then
      available <- available_days current ;;
      Return (send_slack_notification (startup_message available) posted)
    else
      changes <- detect_changes py_str current (status_object previous) ;;
      if negb (is_empty changes)
      then Return (send_slack_notification (change_message changes) posted)
      else Return posted.
Proof.
  unfold compare_and_notify. rewrite truthy_object.
  now destruct (is_empty previous).
Qed.

Lemma detect_changes_spec py_str current previous :
  Permutation (keys current) day_keys ->
  detect_changes py_str current (status_object previous) =
  Return (map render (transitions current previous)).
Proof.
  intros P. rewrite detect_changes_object. rewrite (sorted_days_spec _ P).
  cbn [bind]. unfold day_keys, transitions.
  rewrite (for_each_collect _
    (fun k => map render (transition_of current previous (day_index k)))).
  - rewrite app_nil_l. apply f_equal. rewrite flat_map_map, map_flat_map.
    apply flat_map_ext_on.
    intros i Hi. now rewrite day_index_day_key.
  - intros acc k I. apply in_map_iff in I as [i [<- Hi]].
    rewrite day_index_day_key, (dict_item_day _ _ P Hi) by assumption.
    cbn [bind]. unfold transition_of.
    change (dict_get previous (day_key i) "×") with (status_of previous i).
    destruct (String.eqb (status_of current i) (status_of previous i));
      cbn [negb map].
    + now rewrite app_nil_r.
    + reflexivity.
Qed.

Lemma available_days_spec current :
  Permutation (keys current) day_keys ->
  available_days current = Return (snapshot current).
Proof.
  intros P. unfold available_days. rewrite (sorted_days_spec _ P).
  cbn [bind]. unfold day_keys, snapshot.
  rewrite (for_each_collect _ (fun k => snapshot_line current (day_index k))).
  - rewrite app_nil_l. apply f_equal. rewrite flat_map_map.
    apply flat_map_ext_on.
    intros i Hi. now rewrite day_index_day_key.
  - intros acc k I. apply in_map_iff in I as [i [<- Hi]].
    rewrite day_index_day_key, (dict_item_day _ _ P Hi) by assumption.
    cbn [bind]. unfold snapshot_line.
    destruct (is_available (status_of current i)).
    + reflexivity.
    + now rewrite app_nil_r.
Qed.

(* ================================================================= *)
(** ** Facts about maps and transitions *)

Lemma DayStatusMap_keys m : DayStatusMap m -> Permutation (keys m) day_keys.
Proof. now intros [P _]. Qed.

Lemma DayStatusMap_NoDup m : DayStatusMap m -> NoDup (keys m).
Proof.
  intros [P _].
  apply (Permutation_NoDup (Permutation_sym P)), NoDup_day_keys.
Qed.

Lemma DayStatusMap_not_empty m : DayStatusMap m -> is_empty m = false.
Proof.
  intros [P _]. destruct m; [|reflexivity].
  apply Permutation_nil in P. discriminate.
Qed.


Lemma dict_find_perm {V : Type} (d d' : list (string * V)) k :
  NoDup (keys d) -> Permutation d d' -> dict_find d k = dict_find d' k.
Proof.
  intros ND P.
  assert (ND' : NoDup (keys d'))
    by apply (Permutation_NoDup (Permutation_map fst P) ND).
  destruct (dict_find d k) as [v|] eqn:E.
  - symmetry. apply dict_find_in; [assumption|].
    apply (Permutation_in _ P). now apply dict_find_some.
  - symmetry. apply dict_find_none. apply dict_find_none in E.
    intros I. apply E.
    apply (Permutation_in _ (Permutation_sym (Permutation_map fst P))), I.
Qed.

Lemma status_of_perm m m' i :
  NoDup (keys m) -> Permutation m m' -> status_of m i = status_of m' i.
Proof.
  intros ND P. unfold status_of, dict_get.
  now rewrite (dict_find_perm m m' _ ND P).
Qed.

Lemma transitions_perm current current' previous :
  NoDup (keys current) -> Permutation current current' ->
  transitions current' previous = transitions current previous.
Proof.
  intros ND P. unfold transitions. apply flat_map_ext.
  intros i. unfold transition_of.
  now rewrite (status_of_perm current current' i ND P).
Qed.

Lemma DayStatusMap_perm m m' :
  DayStatusMap m -> Permutation m m' -> DayStatusMap m'.
Proof.
  intros [P F] Q. split.
  - apply (Permutation_trans (Permutation_sym (Permutation_map fst Q)) P).
  - apply (Permutation_Forall Q F).
Qed.

Lemma transition_of_day current previous i t :
  In t (transition_of current previous i) -> t_day t = i.
Proof.
  unfold transition_of.
  destruct (String.eqb _ _); simpl; [tauto|]. now intros [<-|[]].
Qed.

Lemma filter_on_day_other current previous i j :
  i <> j -> filter (on_day i) (transition_of current previous j) = [].
Proof.
  intros N. unfold transition_of. destruct (String.eqb _ _); [reflexivity|].
  simpl. unfold on_day. simpl.
  destruct (Z.eqb_spec j i); [congruence | reflexivity].
Qed.

Lemma filter_on_day_same current previous i :
  filter (on_day i) (transition_of current previous i)
  = transition_of current previous i.
Proof.
  unfold transition_of. destruct (String.eqb _ _); [reflexivity|].
  simpl. unfold on_day. simpl. now rewrite Z.eqb_refl.
Qed.

Lemma filter_flat_map_day current previous i l :
  NoDup l -> In i l ->
  filter (on_day i) (flat_map (transition_of current previous) l)
  = transition_of current previous i.
Proof.
  induction l as [|j l IH]; intros ND I; [destruct I|].
  inversion ND as [|? ? NI ND']; subst.
  cbn [flat_map]. rewrite filter_app.
  destruct I as [->|I].
  - rewrite filter_on_day_same.
    assert (E : filter (on_day i)
                  (flat_map (transition_of current previous) l) = []).
    { clear IH ND ND'. induction l as [|j l IH]; [reflexivity|].
      cbn [flat_map]. rewrite filter_app, filter_on_day_other.
      - apply IH. intros I. apply NI. now right.
      - intros ->. apply NI. now left. }
    rewrite E. apply app_nil_r.
  - rewrite filter_on_day_other by (intros ->; contradiction).
    now apply IH.
Qed.

Lemma transitions_on_day current previous i :
  In i days ->
  filter (on_day i) (transitions current previous)
  = transition_of current previous i.
Proof. apply filter_flat_map_day, NoDup_days. Qed.

Lemma flat_map_increasing (f : Z -> list transition) l :
  (forall i t, In t (f i) -> t_day t = i) ->
  (forall i, (List.length (f i) <= 1)%nat) ->
  StronglySorted Z.lt l ->
  StronglySorted Z.lt (map t_day (flat_map f l)).
Proof.
  intros D L. induction 1 as [|i l S IH F]; [constructor|].
  cbn [flat_map]. rewrite map_app.
  specialize (L i). pose proof (D i) as Di.
  destruct (f i) as [|t [|t' r]]; simpl in *; [exact IH | | lia].
  constructor; [exact IH|].
  rewrite (Di t) by now left.
  apply Forall_forall. intros j I.
  apply in_map_iff in I as [t' [<- I]].
  apply in_flat_map in I as [j [Ij It]].
  rewrite (D j t' It).
  rewrite Forall_forall in F. now apply F.
Qed.

Lemma transitions_increasing current previous :
  StronglySorted Z.lt (map t_day (transitions current previous)).
Proof.
  apply flat_map_increasing.
  - apply transition_of_day.
  - intros i. unfold transition_of. destruct (String.eqb _ _); simpl; lia.
  - apply days_increasing.
Qed.

Lemma transitions_same m : transitions m m = [].
Proof.
  unfold transitions. induction days as [|i l IH]; [reflexivity|].
  cbn [flat_map]. rewrite IH. unfold transition_of.
  now rewrite String.eqb_refl.
Qed.

Lemma is_empty_map {A B : Type} (f : A -> B) l :
  is_empty (map f l) = is_empty l.
Proof. now destruct l. Qed.

Lemma DayStatusMap_check m :
  keys m = day_keys ->
  forallb (fun kv => is_available (snd kv) || String.eqb (snd kv) Full) m = true ->
  DayStatusMap m.
Proof.
  intros K F. split.
  - rewrite K. apply Permutation_refl.
  - apply Forall_forall. intros kv I.
    rewrite forallb_forall in F. specialize (F kv I).
    unfold is_available in F. unfold is_status.
    rewrite !orb_true_iff, !String.eqb_eq in F. tauto.
Qed.

Lemma DayStatusMap_day5_open : DayStatusMap day5_open.
Proof. apply DayStatusMap_check; vm_compute; reflexivity. Qed.

Lemma snapshot_filter current :
  snapshot current =
  map (fun i => available_line (day_key i) (status_of current i))
      (snapshot_days current).
Proof.
  unfold snapshot, snapshot_days. induction days as [|i l IH]; [reflexivity|].
  cbn [flat_map filter]. rewrite IH. unfold snapshot_line.
  destruct (is_available (status_of current i)); reflexivity.
Qed.

Lemma filter_increasing (f : Z -> bool) l :
  StronglySorted Z.lt l -> StronglySorted Z.lt (filter f l).
Proof.
  induction 1 as [|i l S IH F]; [constructor|].
  cbn [filter]. destruct (f i); [|exact IH].
  constructor; [exact IH|].
  apply Forall_forall. intros j I. apply filter_In in I as [I _].
  rewrite Forall_forall in F. now apply F.
Qed.

Lemma snapshot_days_increasing current :
  StronglySorted Z.lt (snapshot_days current).
Proof. apply filter_increasing, days_increasing. Qed.

Lemma snapshot_none current :
  (forall i, In i days -> is_available (status_of current i) = false) ->
  snapshot current = [].
Proof.
  unfold snapshot. induction days as [|i l IH]; intros H; [reflexivity|].
  cbn [flat_map]. unfold snapshot_line at 1. rewrite (H i) by now left.
  apply IH. intros j I. apply H. now right.
Qed.

Lemma compare_first_run py_str current previous_status posted :
  truthy previous_status = false ->
  Permutation (keys current) day_keys ->
  compare_and_notify py_str current previous_status posted =
  Return (posted ++ [startup_message (snapshot current)])%list.
Proof.
  intros F P. unfold compare_and_notify. rewrite F. cbn [negb].
  rewrite (available_days_spec _ P). reflexivity.
Qed.

Lemma save_ignores_old d current state state' :
  save_current_state d current state = save_current_state d current state'.
Proof. destruct d; reflexivity. Qed.

Lemma cycle_first_run py_str fetched d posted state current :
  get_availability_status fetched = Some current ->
  DayStatusMap current ->
  truthy (load_previous_state state) = false ->
  cycle py_str fetched d (mk_world posted state) =
  Sleeps (mk_world (posted ++ [startup_message (snapshot current)])%list
                   (save_current_state d current state)).
Proof.
  intros G M L. unfold cycle. rewrite G, (DayStatusMap_not_empty _ M).
  cbn [state_file slack].
  rewrite (compare_first_run _ _ _ _ L (DayStatusMap_keys _ M)). reflexivity.
Qed.

Lemma load_absent state : absent state -> load_previous_state state = JObject [].
Proof.
  intros [->|[->|[text [-> E]]]]; try reflexivity.
  unfold load_previous_state. now rewrite E.
Qed.

(** *** The texts of the messages *)

Lemma render_text t : render t = transition_text t.
Proof. reflexivity. Qed.

Lemma change_message_text lines : change_message lines = change_text lines.
Proof. reflexivity. Qed.

Lemma startup_message_text lines : startup_message lines = startup_text lines.
Proof. destruct lines; reflexivity. Qed.

Lemma snapshot_listing current :
  snapshot current = map (day_listing current) (open_days current).
Proof.
  rewrite snapshot_filter. unfold snapshot_days, open_days.
  unfold gained, is_available. apply map_ext. intros i.
  unfold day_listing, listing_text, available_line, day_key, day_label,
    numeral, PyStr.of_int.
  reflexivity.
Qed.

(* ================================================================= *)
(** ** The claims on the comparison *)

(** C1: for a previous map that is present (not empty) and a current
    DayStatusMap, the comparison emits exactly one transition for each
    day whose current status differs from the previous one (Full when
    the previous map has no entry for the day), none for a day whose
    statuses are equal, and lists them by ascending day, whatever the
    order of the entries of either map.  What it emits for a transition
    is the line that reads its day, its previous and its current status,
    and what it posts is the change message made of these lines; the
    status of a day is the value the map holds under the label of the
    day. *)
Theorem diff_one_transition_per_changed_day
  (py_str : json -> string) (previous current : dict) (posted : list string) :
  previous <> [] ->
  DayStatusMap current ->
  let ts := transitions current previous in
  detect_changes py_str current (status_object previous)
  = Return (map transition_text ts)
  /\ compare_and_notify py_str current (status_object previous) posted
     = Return (if is_empty ts then posted
               else (posted ++ [change_text (map transition_text ts)])%list)
  /\ (forall i, In i days ->
        status_of current i <> status_of previous i ->
        filter (on_day i) ts
        = [mk_transition i (status_of previous i) (status_of current i)])
  /\ (forall i, In i days ->
        status_of current i = status_of previous i ->
        filter (on_day i) ts = [])
  /\ (forall i, dict_find previous (day_key i) = None ->
        status_of previous i = Full)
  /\ (forall i v, dict_find previous (day_key i) = Some v ->
        status_of previous i = v)
  /\ (forall i, In i days ->
        dict_find current (day_key i) = Some (status_of current i))
  /\ (forall i, day_key i = "2月" ++ numeral i ++ "日")
  /\ (forall t, In t ts -> In (t_day t) days)
  /\ StronglySorted Z.lt (map t_day ts)
  /\ (forall current', Permutation current current' ->
        detect_changes py_str current' (status_object previous)
        = detect_changes py_str current (status_object previous))
  /\ (forall previous', NoDup (keys previous) ->
        Permutation previous previous' ->
        detect_changes py_str current (status_object previous')
        = detect_changes py_str current (status_object previous)).
Proof.
  intros NE M ts.
  pose proof (DayStatusMap_keys _ M) as P.
  assert (D : detect_changes py_str current (status_object previous)
              = Return (map transition_text ts))
    by apply (detect_changes_spec _ _ _ P).
  split; [exact D|]. split.
  { rewrite compare_object. destruct previous; [congruence|].
    cbn [is_empty]. rewrite D. cbn [bind]. rewrite is_empty_map.
    destruct (is_empty ts); reflexivity. }
  split.
  { intros i Hi N. unfold ts. rewrite (transitions_on_day _ _ _ Hi).
    unfold transition_of.
    destruct (String.eqb_spec (status_of current i) (status_of previous i));
      [contradiction | reflexivity]. }
  split.
  { intros i Hi E. unfold ts. rewrite (transitions_on_day _ _ _ Hi).
    unfold transition_of. rewrite E. now rewrite String.eqb_refl. }
  split.
  { intros i E. unfold status_of, dict_get. now rewrite E. }
  split.
  { intros i v E. unfold status_of, dict_get. now rewrite E. }
  split.
  { intros i Hi. unfold status_of, dict_get.
    destruct (dict_find current (day_key i)) eqn:E; [reflexivity|].
    exfalso. apply dict_find_none in E. apply E.
    apply (Permutation_in _ (Permutation_sym P)).
    unfold day_keys. now apply in_map. }
  split; [reflexivity|].
  split.
  { intros t I. apply in_flat_map in I as [i [Hi It]].
    now rewrite (transition_of_day _ _ _ _ It). }
  split; [apply transitions_increasing|].
  split.
  - intros current' Q. rewrite D.
    rewrite (detect_changes_spec py_str current' previous).
    + now rewrite (transitions_perm current current' previous
                     (DayStatusMap_NoDup _ M) Q).
    + apply (DayStatusMap_keys _ (DayStatusMap_perm _ _ M Q)).
  - intros previous' ND Q. rewrite D, (detect_changes_spec _ _ _ P).
    apply f_equal, f_equal. unfold ts, transitions. apply flat_map_ext.
    intros i. unfold transition_of.
    now rewrite (status_of_perm previous previous' i ND Q).
Qed.

Lemma diff_one_transition_per_changed_day_witness :
  detect_changes unprinted day5_open (status_object previous_5_6)
  = Return ["🎉 *2月5日*: × → ○"].
Proof.
  destruct (diff_one_transition_per_changed_day unprinted previous_5_6
              day5_open []) as [H _].
  - discriminate.
  - exact DayStatusMap_day5_open.
  - exact H.
Defined.

(** C8: comparing a DayStatusMap with itself takes the branch of the
    changes, not the one of the first run, finds no transition, and
    posts nothing. *)
Theorem diff_same_map_posts_nothing
  (py_str : json -> string) (m : dict) (posted : list string) :
  DayStatusMap m ->
  is_empty m = false
  /\ truthy (status_object m) = true
  /\ transitions m m = []
  /\ detect_changes py_str m (status_object m) = Return []
  /\ compare_and_notify py_str m (status_object m) posted = Return posted.
Proof.
  intros M. pose proof (DayStatusMap_not_empty _ M) as NE.
  pose proof (detect_changes_spec py_str m m (DayStatusMap_keys _ M)) as D.
  rewrite transitions_same in D.
  split; [exact NE|]. split; [now rewrite truthy_object, NE|].
  split; [apply transitions_same|]. split; [exact D|].
  rewrite compare_object, NE, D. reflexivity.
Qed.

Lemma diff_same_map_posts_nothing_witness :
  compare_and_notify unprinted day5_open (status_object day5_open) []
  = Return [].
Proof.
  apply (diff_same_map_posts_nothing unprinted day5_open []).
  exact DayStatusMap_day5_open.
Defined.

(** C7, at the input where the script fails it.  The state file holds
    the text [[1]]: [json.load] accepts it, so [load_previous_state]
    returns the list, which is not empty; the comparison takes the
    branch of the changes and [previous_status.get] raises
    [AttributeError] for the first day.  The turn posts nothing and
    saves nothing, and the exception ends the loop.  With no state file
    the same page gives the turn of the first run, which posts the
    startup snapshot. *)
Theorem stored_list_stops_the_monitor
  (py_str : json -> string) (d : disk) (posted : list string)
  (after : list (result response * disk)) :
  let fetched := Return (mk_response 200 page_day5_open) in
  get_availability_status fetched = Some day5_open
  /\ load_previous_state (Text "[1]") = JArray [JNumber "1"]
  /\ cycle py_str fetched d (mk_world posted (Text "[1]"))
     = Stops AttributeError (mk_world posted (Text "[1]"))
  /\ main_loop py_str ((fetched, d) :: after) (mk_world posted (Text "[1]"))
     = Stops AttributeError (mk_world posted (Text "[1]"))
  /\ cycle py_str fetched d (mk_world posted NoFile)
     = Sleeps (mk_world
                 (posted ++ [startup_text ["  • 2月5日: ○"]])%list
                 (save_current_state d day5_open NoFile)).
Proof.
  intros fetched.
  assert (G : get_availability_status fetched = Some day5_open)
    by reflexivity.
  assert (C : cycle py_str fetched d (mk_world posted (Text "[1]"))
              = Stops AttributeError (mk_world posted (Text "[1]"))).
  { unfold cycle. rewrite G. vm_compute. reflexivity. }
  split; [exact G|]. split; [reflexivity|]. split; [exact C|]. split.
  - cbn [main_loop]. now rewrite C.
  - rewrite (cycle_first_run py_str fetched d posted NoFile day5_open G
               DayStatusMap_day5_open eq_refl).
    reflexivity.
Qed.



(* ================================================================= *)
(** ** The claims on the extraction *)

Lemma length_append a b :
  String.length (a ++ b) = (String.length a + String.length b)%nat.
Proof. induction a as [|c a IH]; simpl; [reflexivity | now rewrite IH]. Qed.




Lemma extract_calendar_missing soup :
  (List.length (find_all "table" soup) < 3)%nat ->
  extract_calendar soup = Return None.
Proof.
  intros H. unfold extract_calendar.
  apply Nat.ltb_lt in H. now rewrite H.
Qed.

Lemma extract_calendar_inv soup m :
  extract_calendar soup = Return (Some m) ->
  exists calendar,
    nth_error (find_all "table" soup) 2 = Some calendar /\
    m = fold_left apply_write (find_all "td" calendar) initial_availability.
Proof.
  intros E.
  destruct (Nat.ltb_spec (List.length (find_all "table" soup)) 3) as [L|L].
  - rewrite (extract_calendar_missing _ L) in E. discriminate.
  - destruct (third_table _ L) as [calendar T].
    rewrite (extract_calendar_found _ _ T) in E.
    exists calendar. split; [exact T | congruence].
Qed.

Lemma status_200 soup :
  get_availability_status (Return (mk_response 200 soup))
  = match extract_calendar soup with
    | Return availability => availability
    | Raise _ => None
    end.
Proof. reflexivity. Qed.


(** C6: with fewer than three tables the extraction fails (the function
    returns [None]), and the turn of the loop in which this happens
    posts nothing and leaves the state file as it is. *)
Theorem fewer_than_three_tables
  (py_str : json -> string) (r : response) (d : disk) (w : world) :
  (List.length (find_all "table" (soup r)) < 3)%nat ->
  extract_calendar (soup r) = Return None
  /\ get_availability_status (Return r) = None
  /\ cycle py_str (Return r) d w = Sleeps w.
Proof.
  intros H. pose proof (extract_calendar_missing _ H) as E.
  assert (G : get_availability_status (Return r) = None).
  { unfold get_availability_status. cbn [bind].
    destruct (negb (status_code r =? 200)%Z); [reflexivity|].
    now rewrite E. }
  split; [exact E|]. split; [exact G|].
  unfold cycle. now rewrite G.
Qed.

Lemma fewer_than_three_tables_witness :
  cycle unprinted (Return (mk_response 200 page_two_tables)) WriteOk
        (mk_world [] (Text "{}"))
  = Sleeps (mk_world [] (Text "{}")).
Proof.
  apply (fewer_than_three_tables unprinted
           (mk_response 200 page_two_tables)).
  vm_compute. lia.
Defined.

(** C2: a page with at least three tables in which no cell of the
    calendar has a recognized day-link with a marker is extracted
    successfully, and the map gives Full to each of the days 1 to 28 of
    February 2026 and holds nothing else. *)
Theorem no_marked_link_all_full (soup : node) :
  (3 <= List.length (find_all "table" soup))%nat ->
  (forall calendar cell,
      nth_error (find_all "table" soup) 2 = Some calendar ->
      In cell (find_all "td" calendar) -> cell_write cell = None) ->
  exists m,
    extract_calendar soup = Return (Some m)
    /\ get_availability_status (Return (mk_response 200 soup)) = Some m
    /\ keys m = day_keys
    /\ (forall i, In i days -> dict_find m (day_key i) = Some Full).
Proof.
  intros L H. destruct (third_table _ L) as [calendar T].
  exists initial_availability.
  assert (E : extract_calendar soup = Return (Some initial_availability)).
  { rewrite (extract_calendar_found _ _ T).
    rewrite fold_no_write; [reflexivity|].
    intros c I. apply (H calendar c T I). }
  split; [exact E|]. split; [|split].
  - rewrite status_200. now rewrite E.
  - apply keys_initial.
  - apply find_initial.
Qed.

Lemma no_marked_link_all_full_witness :
  exists m,
    extract_calendar page_without_markers = Return (Some m)
    /\ get_availability_status (Return (mk_response 200 page_without_markers))
       = Some m
    /\ keys m = day_keys
    /\ (forall i, In i days -> dict_find m (day_key i) = Some Full).
Proof.
  apply (no_marked_link_all_full page_without_markers).
  - vm_compute. lia.
  - intros calendar cell T I. vm_compute in T. injection T as <-.
    vm_compute in I.
    destruct I as [<-|[<-|[<-|[]]]]; reflexivity.
Defined.

Lemma in_days i : (1 <= i <= 28)%Z -> In i days.
Proof.
  intros H. unfold days. apply in_map_iff. exists (Z.to_nat i).
  split; [lia|]. apply in_seq. lia.
Qed.













(* ================================================================= *)
(** ** The state file: what is saved is what is loaded *)

Section JsonFacts.
Import PyStr Json.

Lemma append_assoc a b c : (a ++ b) ++ c = a ++ (b ++ c).
Proof. induction a as [|x a IH]; simpl; [reflexivity | now rewrite IH]. Qed.

(** An escaped character is read back as the character. *)
Lemma scan_escape_char c tail :
  scanstring (escape_char c ++ tail) = prepend (String c "") (scanstring tail).
Proof. destruct c as [[] [] [] [] [] [] [] []]; reflexivity. Qed.

Lemma scan_escape s rest :
  scanstring (escape s ++ String quote rest) = Some (s, rest).
Proof.
  induction s as [|c s IH]; cbn [escape append].
  - reflexivity.
  - rewrite append_assoc, scan_escape_char, IH. reflexivity.
Qed.

Lemma parse_members_eq f room s pairs :
  parse_members (S f) room s pairs =
  match scanstring s with
  | None => None
  | Some (key, r) =>
      match skip_ws r with
      | "" => None
      | String c r1 =>
          if negb (Ascii.eqb c ":") then None
          else
            match parse_value f room (skip_ws r1) with
            | None => None
            | Some (value, r2) =>
                let pairs' := dict_set pairs key value in
                match skip_ws r2 with
                | "" => None
                | String c2 r3 =>
                    if Ascii.eqb c2 "}" then Some (JObject pairs', r3)
                    else if Ascii.eqb c2 "," then
                      match skip_ws r3 with
                      | "" => None
                      | String c3 r4 =>
                          if Ascii.eqb c3 quote
                          then parse_members f room r4 pairs'
                          else None
                      end
                    else None
                end
            end
      end
  end.
Proof. reflexivity. Qed.

Lemma parse_value_string f room r :
  parse_value (S f) room (String quote r) =
  match scanstring r with
  | Some (x, rest) => Some (JString x, rest)
  | None => None
  end.
Proof. reflexivity. Qed.

Lemma member_step f room k v pairs X :
  parse_members (S (S f)) room
    (escape k ++ String quote (": " ++ String quote (escape v ++ String quote X)))
    pairs
  = match skip_ws X with
    | "" => None
    | String c2 r3 =>
        if Ascii.eqb c2 "}"
        then Some (JObject (dict_set pairs k (JString v)), r3)
        else if Ascii.eqb c2 "," then
          match skip_ws r3 with
          | "" => None
          | String c3 r4 =>
              if Ascii.eqb c3 quote
              then parse_members (S f) room r4 (dict_set pairs k (JString v))
              else None
          end
        else None
    end.
Proof.
  rewrite parse_members_eq, scan_escape.
  change (skip_ws (": " ++ String quote (escape v ++ String quote X)))
    with (String ":" (" " ++ String quote (escape v ++ String quote X))).
  cbv beta iota.
  change (negb (Ascii.eqb ":" ":")) with false. cbv iota.
  change (skip_ws (" " ++ String quote (escape v ++ String quote X)))
    with (String quote (escape v ++ String quote X)).
  rewrite parse_value_string, scan_escape. reflexivity.
Qed.

Lemma member_step_last f room k v pairs :
  parse_members (S (S f)) room (members_text k v []) pairs
  = Some (JObject (put pairs (k, v)), "").
Proof. cbn [members_text]. rewrite member_step. reflexivity. Qed.

Lemma member_step_next f room k v k' v' rest pairs :
  parse_members (S (S f)) room (members_text k v ((k', v') :: rest)) pairs
  = parse_members (S f) room (members_text k' v' rest) (put pairs (k, v)).
Proof. cbn [members_text]. rewrite member_step. reflexivity. Qed.

Lemma parse_members_text room rest :
  forall k v pairs fuel,
    (List.length rest + 2 <= fuel)%nat ->
    parse_members fuel room (members_text k v rest) pairs
    = Some (JObject (fold_left put ((k, v) :: rest) pairs), "").
Proof.
  induction rest as [|[k' v'] rest IH]; intros k v pairs fuel F;
    destruct fuel as [|[|f]]; try (simpl in F; lia).
  - apply member_step_last.
  - rewrite member_step_next, IH by (simpl in F; lia). reflexivity.
Qed.

Lemma members_text_length k v rest :
  (List.length rest + 1 <= String.length (members_text k v rest))%nat.
Proof.
  revert k v. induction rest as [|[k' v'] rest IH]; intros k v;
    cbn [members_text]; rewrite length_append; cbn [String.length].
  - simpl. lia.
  - specialize (IH k' v').
    repeat (rewrite length_append || cbn [String.length append List.length]).
    lia.
Qed.

Lemma dumps_members k v rest :
  String.concat ("," ++ nl ++ "  ") (map encode_member ((k, v) :: rest))
  ++ nl ++ "}"
  = String quote (members_text k v rest).
Proof.
  revert k v. induction rest as [|[k' v'] rest IH]; intros k v.
  - cbn [map String.concat members_text]. unfold encode_member, encode_string.
    cbn [fst snd].
    repeat (rewrite append_assoc || cbn [append]). reflexivity.
  - change (map encode_member ((k, v) :: (k', v') :: rest))
      with (encode_member (k, v) :: map encode_member ((k', v') :: rest)).
    change (members_text k v ((k', v') :: rest))
      with (escape k
            ++ String quote
                 (": " ++ String quote
                    (escape v
                     ++ String quote
                          ("," ++ nl ++ "  "
                           ++ String quote (members_text k' v' rest))))).
    rewrite <- IH.
    change (String.concat ("," ++ nl ++ "  ")
              (encode_member (k, v) :: map encode_member ((k', v') :: rest)))
      with (encode_member (k, v) ++ ("," ++ nl ++ "  ")
            ++ String.concat ("," ++ nl ++ "  ")
                 (map encode_member ((k', v') :: rest))).
    unfold encode_member at 1, encode_string. cbn [fst snd].
    generalize (String.concat ("," ++ nl ++ "  ")
                  (map encode_member ((k', v') :: rest))) as tail.
    intros tail.
    repeat (rewrite append_assoc || cbn [append]). reflexivity.
Qed.

Lemma dumps_cons k v rest :
  dumps ((k, v) :: rest)
  = "{" ++ nl ++ "  " ++ String quote (members_text k v rest).
Proof.
  unfold dumps, join. rewrite <- dumps_members.
  repeat (rewrite append_assoc || cbn [append]). reflexivity.
Qed.

Lemma fold_put m :
  forall pairs,
    NoDup (keys pairs ++ keys m) ->
    fold_left put m pairs
    = (pairs ++ map (fun kv => (fst kv, JString (snd kv))) m)%list.
Proof.
  induction m as [|[k v] m IH]; intros pairs ND; cbn [fold_left map].
  - now rewrite app_nil_r.
  - assert (A : put pairs (k, v) = (pairs ++ [(k, JString v)])%list).
    { unfold put. cbn [fst snd]. apply dict_set_absent, dict_find_none.
      intros I. apply NoDup_remove_2 in ND. apply ND, in_or_app. now left. }
    rewrite A, IH.
    + now rewrite <- app_assoc.
    + unfold keys in *. rewrite map_app, <- app_assoc. exact ND.
Qed.

Lemma loads_dumps m :
  NoDup (keys m) -> loads (dumps m) = Some (status_object m).
Proof.
  intros ND. destruct m as [|[k v] rest]; [reflexivity|].
  rewrite dumps_cons. unfold loads.
  change (starts_with (bytes [239; 187; 191])
            ("{" ++ nl ++ "  " ++ String quote (members_text k v rest)))
    with false. cbv iota.
  change (skip_ws ("{" ++ nl ++ "  " ++ String quote (members_text k v rest)))
    with ("{" ++ nl ++ "  " ++ String quote (members_text k v rest)).
  change (parse_value
            (S (2 * String.length
                  ("{" ++ nl ++ "  " ++ String quote (members_text k v rest))))
            recursion_room
            ("{" ++ nl ++ "  " ++ String quote (members_text k v rest)))
    with (parse_members
            (2 * String.length
               ("{" ++ nl ++ "  " ++ String quote (members_text k v rest)))
            (Nat.pred recursion_room)
            (members_text k v rest) []).
  rewrite parse_members_text.
  - change (String.eqb (skip_ws "") "") with true. cbv iota.
    rewrite fold_put by exact ND. reflexivity.
  - pose proof (members_text_length k v rest) as H.
    change (String.length
              ("{" ++ nl ++ "  " ++ String quote (members_text k v rest)))
      with (5 + String.length (members_text k v rest))%nat.
    lia.
Qed.

Lemma as_status_dict_object m : as_status_dict (status_object m) = Some m.
Proof.
  unfold status_object. cbn [as_status_dict].
  induction m as [|[k v] m IH]; [reflexivity|].
  cbn [map as_status_dict_members fst snd]. now rewrite IH.
Qed.

(** *** The fuel of the decoder

    Every call of the decoder returns a text shorter than the one it
    was given, and the fuel of [loads] is never used up. *)

Lemma skip_ws_length s : (String.length (skip_ws s) <= String.length s)%nat.
Proof.
  induction s as [|c s IH]; simpl; [lia|].
  destruct (is_ws c); simpl; lia.
Qed.

Lemma skip_ws_cons s c r :
  skip_ws s = String c r -> (String.length r < String.length s)%nat.
Proof.
  intros E. pose proof (skip_ws_length s) as L. rewrite E in L. simpl in L. lia.
Qed.

Lemma prepend_some p o x r :
  prepend p o = Some (x, r) -> exists x', o = Some (x', r).
Proof.
  destruct o as [[x' r']|]; simpl; [|discriminate].
  intros [= _ <-]. eauto.
Qed.

Lemma scanstring_length_upto n :
  forall s x r, (String.length s <= n)%nat ->
    scanstring s = Some (x, r) -> (String.length r < String.length s)%nat.
Proof.
  induction n as [|n IH]; intros s x r L H.
  - destruct s; [discriminate | simpl in L; lia].
  - destruct s as [|c s1]; [discriminate|].
    cbn [scanstring] in H. simpl in L.
    destruct (Ascii.eqb c quote).
    { injection H as _ <-. simpl. lia. }
    destruct (Ascii.eqb c backslash).
    2:{ destruct (nat_of_ascii c <? 32)%nat; [discriminate|].
        apply prepend_some in H as [x' H]. apply IH in H; simpl; lia. }
    destruct s1 as [|e r1]; [discriminate|]. simpl in L.
    destruct (Ascii.eqb e "u").
    2:{ destruct (unescape e); [|discriminate].
        apply prepend_some in H as [x' H]. apply IH in H; simpl; lia. }
    destruct r1 as [|h1 [|h2 [|h3 [|h4 r2]]]]; try discriminate.
    simpl in L.
    destruct (hex4 h1 h2 h3 h4) as [uni|]; [|discriminate].
    destruct (is_high_surrogate uni && starts_with (String backslash "u") r2).
    2:{ apply prepend_some in H as [x' H]. apply IH in H; simpl; lia. }
    destruct r2 as [|a1 [|a2 [|g1 [|g2 [|g3 [|g4 r3]]]]]]; try discriminate.
    simpl in L.
    destruct (hex4 g1 g2 g3 g4) as [uni2|]; [|discriminate].
    destruct (is_low_surrogate uni2);
      apply prepend_some in H as [x' H]; apply IH in H; simpl in *; lia.
Qed.

Lemma scanstring_length s x r :
  scanstring s = Some (x, r) -> (String.length r < String.length s)%nat.
Proof. apply (scanstring_length_upto (String.length s)). lia. Qed.

Lemma span_digits_length s d r :
  span_digits s = (d, r) -> (String.length r <= String.length s)%nat.
Proof.
  revert d r. induction s as [|c s IH]; intros d r H; simpl in H.
  - injection H as _ <-. simpl. lia.
  - destruct (is_digit c).
    + destruct (span_digits s) as [d' r'] eqn:E. injection H as _ <-.
      specialize (IH _ _ eq_refl). simpl. lia.
    + injection H as _ <-. simpl. lia.
Qed.

Lemma minus_part_length s x r :
  minus_part s = (x, r) -> (String.length r <= String.length s)%nat.
Proof.
  destruct s as [|c s]; simpl.
  - intros [= _ <-]. simpl. lia.
  - destruct (Ascii.eqb c "-"); intros [= _ <-]; simpl; lia.
Qed.

Lemma int_part_length s x r :
  int_part s = Some (x, r) -> (String.length r < String.length s)%nat.
Proof.
  destruct s as [|c s]; simpl; [discriminate|].
  destruct (negb (is_digit c)); [discriminate|].
  destruct (Ascii.eqb c "0").
  - intros [= _ <-]. lia.
  - destruct (span_digits s) as [d r'] eqn:E. intros [= _ <-].
    apply span_digits_length in E. lia.
Qed.

Lemma frac_part_length s x r :
  frac_part s = (x, r) -> (String.length r <= String.length s)%nat.
Proof.
  destruct s as [|c s]; simpl.
  - intros [= _ <-]. simpl. lia.
  - destruct (Ascii.eqb c "."); [|intros [= _ <-]; simpl; lia].
    destruct (span_digits s) as [d r'] eqn:E. apply span_digits_length in E.
    destruct (String.eqb d ""); intros [= _ <-]; simpl; lia.
Qed.

Lemma sign_part_length s x r :
  sign_part s = (x, r) -> (String.length r <= String.length s)%nat.
Proof.
  destruct s as [|c s]; simpl.
  - intros [= _ <-]. simpl. lia.
  - destruct (Ascii.eqb c "+" || Ascii.eqb c "-"); intros [= _ <-]; simpl; lia.
Qed.

Lemma exp_part_length s x r :
  exp_part s = (x, r) -> (String.length r <= String.length s)%nat.
Proof.
  destruct s as [|c s]; simpl.
  - intros [= _ <-]. simpl. lia.
  - destruct (Ascii.eqb c "e" || Ascii.eqb c "E"); [|intros [= _ <-]; simpl; lia].
    destruct (sign_part s) as [sg r1] eqn:E1. apply sign_part_length in E1.
    destruct (span_digits r1) as [d r'] eqn:E. apply span_digits_length in E.
    destruct (String.eqb d ""); intros [= _ <-]; simpl; lia.
Qed.

Lemma match_number_length s lit r :
  match_number s = Some (lit, r) -> (String.length r < String.length s)%nat.
Proof.
  unfold match_number.
  destruct (minus_part s) as [sg s1] eqn:E1. apply minus_part_length in E1.
  destruct (int_part s1) as [[ip s2]|] eqn:E2; [|discriminate].
  apply int_part_length in E2.
  destruct (frac_part s2) as [fr s3] eqn:E3. apply frac_part_length in E3.
  destruct (exp_part s3) as [ex s4] eqn:E4. apply exp_part_length in E4.
  intros [= _ <-]. lia.
Qed.

Lemma drop_length n s :
  (n <= String.length s)%nat ->
  String.length (drop n s) = (String.length s - n)%nat.
Proof.
  revert s. induction n as [|n IH]; intros s L; simpl.
  - lia.
  - destruct s as [|c s]; simpl in *; [lia|]. apply IH. lia.
Qed.

Lemma starts_with_length p s :
  starts_with p s = true -> (String.length p <= String.length s)%nat.
Proof.
  revert s. induction p as [|a p IH]; intros s H; simpl; [lia|].
  destruct s as [|b s]; simpl in H; [discriminate|].
  apply andb_true_iff in H as [_ H]. apply IH in H. simpl. lia.
Qed.

Lemma literal_length word v s v' r :
  word <> "" -> literal word v s = Some (v', r) ->
  (String.length r < String.length s)%nat.
Proof.
  intros N. unfold literal.
  destruct (starts_with word s) eqn:E; [|discriminate].
  intros [= _ <-]. apply starts_with_length in E.
  rewrite drop_length by exact E.
  destruct word; [congruence|]. simpl in *. lia.
Qed.

Lemma number_length s v r :
  number s = Some (v, r) -> (String.length r < String.length s)%nat.
Proof.
  unfold number. destruct (match_number s) as [[lit rest]|] eqn:E;
    [|discriminate].
  destruct (is_integer_literal lit && _); [discriminate|].
  intros [= _ <-]. apply (match_number_length _ _ _ E).
Qed.

Lemma first_of_some {A : Type} (a b : option A) x :
  first_of a b = Some x -> a = Some x \/ b = Some x.
Proof. destruct a; simpl; auto. Qed.

Lemma parse_value_eq f room s :
  parse_value (S f) room s =
      match s with
      | "" => None
      | String c r =>
          if Ascii.eqb c quote then
            match scanstring r with
            | Some (x, rest) => Some (JString x, rest)
            | None => None
            end
          else if Ascii.eqb c "{" then
            match room with
            | O => None
            | S inner =>
                match skip_ws r with
                | "" => None
                | String c1 r1 =>
                    if Ascii.eqb c1 "}" then Some (JObject [], r1)
                    else if Ascii.eqb c1 quote
                    then parse_members f inner r1 []
                    else None
                end
            end
          else if Ascii.eqb c "[" then
            match room with
            | O => None
            | S inner =>
                match skip_ws r with
                | "" => None
                | String c1 r1 =>
                    if Ascii.eqb c1 "]" then Some (JArray [], r1)
                    else parse_items f inner (String c1 r1) []
                end
            end
          else
            first_of (literal "null" JNull s)
            (first_of (literal "true" (JBool true) s)
            (first_of (literal "false" (JBool false) s)
            (first_of (number s)
            (first_of (literal "NaN" (JNumber "NaN") s)
            (first_of (literal "Infinity" (JNumber "Infinity") s)
                      (literal "-Infinity" (JNumber "-Infinity") s))))))
      end.
Proof. reflexivity. Qed.

Lemma parse_items_eq f room s values :
  parse_items (S f) room s values =
      match parse_value f room s with
      | None => None
      | Some (value, r) =>
          let values' := (values ++ [value])%list in
          match skip_ws r with
          | "" => None
          | String c r1 =>
              if Ascii.eqb c "]" then Some (JArray values', r1)
              else if Ascii.eqb c ","
              then parse_items f room (skip_ws r1) values'
              else None
          end
      end.
Proof. reflexivity. Qed.

Lemma scalar_length s v r :
  first_of (literal "null" JNull s)
    (first_of (literal "true" (JBool true) s)
    (first_of (literal "false" (JBool false) s)
    (first_of (number s)
    (first_of (literal "NaN" (JNumber "NaN") s)
    (first_of (literal "Infinity" (JNumber "Infinity") s)
              (literal "-Infinity" (JNumber "-Infinity") s))))))
  = Some (v, r) ->
  (String.length r < String.length s)%nat.
Proof.
  intros H.
  repeat (apply first_of_some in H as [H|H];
          [first [ apply literal_length in H; [exact H | discriminate]
                 | apply (number_length _ _ _ H) ] |]).
  apply literal_length in H; [exact H | discriminate].
Qed.

Lemma parse_rest_length f :
  (forall room s v r, parse_value f room s = Some (v, r) ->
                      (String.length r < String.length s)%nat)
  /\ (forall room s acc v r, parse_members f room s acc = Some (v, r) ->
                             (String.length r < String.length s)%nat)
  /\ (forall room s acc v r, parse_items f room s acc = Some (v, r) ->
                             (String.length r < String.length s)%nat).
Proof.
  induction f as [|f [IHv [IHm IHi]]].
  { split; [|split]; intros; discriminate. }
  split; [|split].
  - intros room s v r H. rewrite parse_value_eq in H.
    destruct s as [|c s0]; [discriminate|].
    destruct (Ascii.eqb c quote).
    { destruct (scanstring s0) as [[x rest]|] eqn:E; [|discriminate].
      injection H as _ <-. apply scanstring_length in E. simpl. lia. }
    destruct (Ascii.eqb c "{").
    { destruct room as [|inner]; [discriminate|].
      destruct (skip_ws s0) as [|c1 r1] eqn:E; [discriminate|].
      apply skip_ws_cons in E.
      destruct (Ascii.eqb c1 "}"); [injection H as _ <-; simpl; lia|].
      destruct (Ascii.eqb c1 quote); [|discriminate].
      apply IHm in H. simpl. lia. }
    destruct (Ascii.eqb c "[").
    { destruct room as [|inner]; [discriminate|].
      destruct (skip_ws s0) as [|c1 r1] eqn:E; [discriminate|].
      pose proof (skip_ws_length s0) as L. rewrite E in L.
      destruct (Ascii.eqb c1 "]"); [injection H as _ <-; simpl in *; lia|].
      apply IHi in H. simpl in *. lia. }
    apply scalar_length in H. exact H.
  - intros room s acc v r H. rewrite parse_members_eq in H.
    destruct (scanstring s) as [[key r0]|] eqn:E0; [|discriminate].
    apply scanstring_length in E0.
    destruct (skip_ws r0) as [|c r1] eqn:E1; [discriminate|].
    apply skip_ws_cons in E1.
    destruct (negb (Ascii.eqb c ":")); [discriminate|].
    pose proof (skip_ws_length r1) as L1.
    destruct (parse_value f room (skip_ws r1)) as [[value r2]|] eqn:E2;
      [|discriminate].
    apply IHv in E2. cbv zeta in H.
    destruct (skip_ws r2) as [|c2 r3] eqn:E3; [discriminate|].
    apply skip_ws_cons in E3.
    destruct (Ascii.eqb c2 "}"); [injection H as _ <-; lia|].
    destruct (Ascii.eqb c2 ","); [|discriminate].
    destruct (skip_ws r3) as [|c3 r4] eqn:E4; [discriminate|].
    apply skip_ws_cons in E4.
    destruct (Ascii.eqb c3 quote); [|discriminate].
    apply IHm in H. lia.
  - intros room s acc v r H. rewrite parse_items_eq in H.
    destruct (parse_value f room s) as [[value r0]|] eqn:E0; [|discriminate].
    apply IHv in E0. cbv zeta in H.
    destruct (skip_ws r0) as [|c r1] eqn:E1; [discriminate|].
    apply skip_ws_cons in E1.
    destruct (Ascii.eqb c "]"); [injection H as _ <-; lia|].
    destruct (Ascii.eqb c ","); [|discriminate].
    pose proof (skip_ws_length r1) as L1.
    apply IHi in H. lia.
Qed.

(** Above twice the length of the text, one more unit of fuel changes
    nothing. *)
Lemma fuel_stable f :
  (forall room s, (2 * String.length s + 1 <= f)%nat ->
                  parse_value (S f) room s = parse_value f room s)
  /\ (forall room s acc, (2 * String.length s + 1 <= f)%nat ->
                         parse_members (S f) room s acc
                         = parse_members f room s acc)
  /\ (forall room s acc, (2 * String.length s + 2 <= f)%nat ->
                         parse_items (S f) room s acc
                         = parse_items f room s acc).
Proof.
  induction f as [|f [IHv [IHm IHi]]].
  { split; [|split]; intros; lia. }
  split; [|split].
  - intros room s L.
    rewrite (parse_value_eq (S f)), (parse_value_eq f).
    destruct s as [|c s0]; [reflexivity|]. simpl in L.
    destruct (Ascii.eqb c quote); [reflexivity|].
    destruct (Ascii.eqb c "{").
    { destruct room as [|inner]; [reflexivity|].
      destruct (skip_ws s0) as [|c1 r1] eqn:E; [reflexivity|].
      apply skip_ws_cons in E.
      destruct (Ascii.eqb c1 "}"); [reflexivity|].
      destruct (Ascii.eqb c1 quote); [|reflexivity].
      apply IHm. lia. }
    destruct (Ascii.eqb c "[").
    { destruct room as [|inner]; [reflexivity|].
      destruct (skip_ws s0) as [|c1 r1] eqn:E; [reflexivity|].
      pose proof (skip_ws_length s0) as L0. rewrite E in L0.
      destruct (Ascii.eqb c1 "]"); [reflexivity|].
      apply IHi. simpl in *. lia. }
    reflexivity.
  - intros room s acc L.
    rewrite (parse_members_eq (S f)), (parse_members_eq f).
    destruct (scanstring s) as [[key r0]|] eqn:E0; [|reflexivity].
    apply scanstring_length in E0.
    destruct (skip_ws r0) as [|c r1] eqn:E1; [reflexivity|].
    apply skip_ws_cons in E1.
    destruct (negb (Ascii.eqb c ":")); [reflexivity|].
    pose proof (skip_ws_length r1) as L1.
    rewrite IHv by lia.
    destruct (parse_value f room (skip_ws r1)) as [[value r2]|] eqn:E2;
      [|reflexivity].
    apply (proj1 (parse_rest_length f)) in E2. cbv zeta.
    destruct (skip_ws r2) as [|c2 r3] eqn:E3; [reflexivity|].
    apply skip_ws_cons in E3.
    destruct (Ascii.eqb c2 "}"); [reflexivity|].
    destruct (Ascii.eqb c2 ","); [|reflexivity].
    destruct (skip_ws r3) as [|c3 r4] eqn:E4; [reflexivity|].
    apply skip_ws_cons in E4.
    destruct (Ascii.eqb c3 quote); [|reflexivity].
    apply IHm. lia.
  - intros room s acc L.
    rewrite (parse_items_eq (S f)), (parse_items_eq f).
    rewrite IHv by lia.
    destruct (parse_value f room s) as [[value r0]|] eqn:E0; [|reflexivity].
    apply (proj1 (parse_rest_length f)) in E0. cbv zeta.
    destruct (skip_ws r0) as [|c r1] eqn:E1; [reflexivity|].
    apply skip_ws_cons in E1.
    destruct (Ascii.eqb c "]"); [reflexivity|].
    destruct (Ascii.eqb c ","); [|reflexivity].
    pose proof (skip_ws_length r1) as L1.
    apply IHi. lia.
Qed.

(** The fuel [loads] gives is enough: more fuel decodes the same
    value. *)
Lemma loads_fuel_enough s n :
  parse_value (n + S (2 * String.length s)) recursion_room (skip_ws s)
  = parse_value (S (2 * String.length s)) recursion_room (skip_ws s).
Proof.
  induction n as [|n IH]; [reflexivity|].
  cbn [Nat.add]. rewrite (proj1 (fuel_stable _)); [exact IH|].
  pose proof (skip_ws_length s). lia.
Qed.
End JsonFacts.

(** C9: saving a DayStatusMap and loading it again gives the same map:
    what [save_current_state] writes (when the disk takes the write) is
    read back by [load_previous_state] entry for entry, in the same
    order. *)
Theorem save_then_load (m : dict) (state : file) :
  DayStatusMap m ->
  load_previous_state (save_current_state WriteOk m state) = status_object m
  /\ as_status_dict (load_previous_state (save_current_state WriteOk m state))
     = Some m.
Proof.
  intros M. cbn [save_current_state load_previous_state].
  rewrite (loads_dumps m (DayStatusMap_NoDup _ M)).
  split; [reflexivity | apply as_status_dict_object].
Qed.

Lemma save_then_load_witness :
  as_status_dict (load_previous_state (save_current_state WriteOk day5_open NoFile))
  = Some day5_open.
Proof.
  apply (save_then_load day5_open NoFile).
  exact DayStatusMap_day5_open.
Defined.

(* ================================================================= *)
(** * Further properties of the script *)

(** ** Failed fetches *)

(** X1: when the request raises, or the answer is not a 200, the
    function returns [None] and the turn of the loop does nothing: it
    posts nothing and leaves the state file as it is. *)
Theorem failed_fetch_idle_turn
  (py_str : json -> string) (fetched : result response) (d : disk)
  (w : world) :
  (forall r, fetched = Return r -> status_code r <> 200%Z) ->
  get_availability_status fetched = None
  /\ cycle py_str fetched d w = Sleeps w.
Proof.
  intros H.
  assert (G : get_availability_status fetched = None).
  { unfold get_availability_status. destruct fetched as [r|e]; [|reflexivity].
    cbn [bind]. specialize (H r eq_refl).
    destruct (Z.eqb_spec (status_code r) 200); [contradiction | reflexivity]. }
  split; [exact G|]. unfold cycle. now rewrite G.
Qed.

Lemma failed_fetch_idle_turn_witness :
  cycle unprinted (Return (mk_response 503 page_day5_open)) WriteOk
        (mk_world [] (Text "{}"))
  = Sleeps (mk_world [] (Text "{}"))
  /\ cycle unprinted (Raise RequestException) WriteOk (mk_world [] NoFile)
     = Sleeps (mk_world [] NoFile).
Proof.
  split.
  - apply (failed_fetch_idle_turn unprinted
             (Return (mk_response 503 page_day5_open))).
    intros r [= <-]. discriminate.
  - apply (failed_fetch_idle_turn unprinted (Raise RequestException)).
    intros r E. discriminate.
Defined.

(** ** Keys that are not numbers *)

Lemma int_raises s e : PyStr.int s = Raise e -> e = ValueError.
Proof.
  unfold PyStr.int.
  set (t := PyStr.skip_spaces _).
  destruct (match t with
            | String "-" r => (true, r)
            | String "+" r => (false, r)
            | _ => (false, t)
            end) as [negative body].
  destruct (PyStr.int_digits 0 0 false body) as [[n count]|].
  - destruct (PyStr.int_max_str_digits <? count)%N; [|discriminate].
    now intros [= <-].
  - now intros [= <-].
Qed.

Lemma day_number_cases k : numbered k \/ day_number k = Raise ValueError.
Proof.
  unfold numbered. destruct (day_number k) as [n|e] eqn:E; [eauto|].
  right. unfold day_number in E. now rewrite (int_raises _ _ E).
Qed.

Lemma map_result_raises {A B : Type} (f : A -> result B) l x e :
  In x l -> f x = Raise e ->
  (forall y e', f y = Raise e' -> e' = e) ->
  map_result f l = Raise e.
Proof.
  intros I R U. induction l as [|y l IH]; [destruct I|]. simpl.
  destruct (f y) as [b|e'] eqn:E; cbn [bind].
  - destruct I as [->|I]; [congruence|]. now rewrite (IH I).
  - now rewrite (U y e' E).
Qed.

Lemma sorted_days_raises status k :
  In k (keys status) -> day_number k = Raise ValueError ->
  sorted_days status = Raise ValueError.
Proof.
  intros I R. unfold sorted_days.
  rewrite (map_result_raises _ _ k ValueError I); [reflexivity | now rewrite R |].
  intros y e' E. destruct (day_number y) as [n|e''] eqn:D; [discriminate|].
  cbn [bind] in E. injection E as <-.
  unfold day_number in D. apply (int_raises _ _ D).
Qed.

Lemma compare_raises py_str current previous_status posted k :
  In k (keys current) -> day_number k = Raise ValueError ->
  compare_and_notify py_str current previous_status posted = Raise ValueError.
Proof.
  intros I R. pose proof (sorted_days_raises _ _ I R) as S.
  unfold compare_and_notify, available_days, detect_changes. rewrite S.
  destruct (truthy previous_status); reflexivity.
Qed.

Lemma main_loop_app py_str turns turns' w w' :
  main_loop py_str turns w = Sleeps w' ->
  main_loop py_str (turns ++ turns')%list w = main_loop py_str turns' w'.
Proof.
  revert w. induction turns as [|[fetched d] turns IH]; intros w H; simpl in *.
  - now injection H as ->.
  - destruct (cycle py_str fetched d w); try discriminate. now apply IH.
Qed.

(** X2: a key of the extracted map that [int] does not accept (the key
    of a marked link whose date does not end in a number) makes
    [compare_and_notify] raise [ValueError] whatever [json.load]
    returned for the state file: in the turn after any turns that ended
    in sleep, nothing is posted and nothing is saved, the exception
    leaves the loop, and the turns that would have followed are never
    made. *)
Theorem unnumbered_key_stops_the_monitor
  (py_str : json -> string) (fetched : result response) (d : disk)
  (w w1 : world) (current : dict) (k : string)
  (before after : list (result response * disk)) :
  In k (keys current) ->
  day_number k = Raise ValueError ->
  get_availability_status fetched = Some current ->
  main_loop py_str before w = Sleeps w1 ->
  (forall previous_status posted,
      compare_and_notify py_str current previous_status posted
      = Raise ValueError)
  /\ cycle py_str fetched d w1 = Stops ValueError w1
  /\ main_loop py_str (before ++ (fetched, d) :: after)%list w
     = Stops ValueError w1.
Proof.
  intros I R G B.
  assert (Y : cycle py_str fetched d w1 = Stops ValueError w1).
  { unfold cycle. rewrite G.
    rewrite (compare_raises py_str current _ (slack w1) k I R).
    destruct current; [destruct I | reflexivity]. }
  split; [intros previous_status posted; apply (compare_raises _ _ _ _ k I R)|].
  split; [exact Y|].
  rewrite (main_loop_app _ _ _ _ _ B). cbn [main_loop]. now rewrite Y.
Qed.

Lemma unnumbered_key_stops_the_monitor_witness :
  main_loop unprinted
            [(Return (mk_response 200 page_day5_open), WriteOk);
             (Return (mk_response 200 page_malformed), WriteOk);
             (Return (mk_response 200 page_day5_open), WriteOk)]
            (mk_world [] NoFile)
  = Stops ValueError
      (mk_world [startup_text ["  • 2月5日: ○"]]
                (Text (Json.dumps day5_open))).
Proof.
  destruct (unnumbered_key_stops_the_monitor unprinted
              (Return (mk_response 200 page_malformed)) WriteOk
              (mk_world [] NoFile)
              (mk_world [startup_text ["  • 2月5日: ○"]]
                        (Text (Json.dumps day5_open)))
              (dict_set (dict_set initial_availability (day_key 5) Limited)
                        "2月soon日" Available)
              "2月soon日"
              [(Return (mk_response 200 page_day5_open), WriteOk)]
              [(Return (mk_response 200 page_day5_open), WriteOk)])
    as [_ [_ H]].
  - apply in_keys_set. now left.
  - reflexivity.
  - reflexivity.
  - vm_compute. reflexivity.
  - exact H.
Defined.

(** ** Maps with other keys than the days of the month *)

Lemma insert_by_key_perm x l : Permutation (insert_by_key x l) (x :: l).
Proof.
  induction l as [|y l IH]; simpl; [apply Permutation_refl|].
  destruct (fst x <=? fst y)%Z; [apply Permutation_refl|].
  apply (Permutation_trans (perm_skip y IH)), perm_swap.
Qed.

Lemma sort_by_key_permutation l : Permutation (sort_by_key l) l.
Proof.
  induction l as [|x l IH]; simpl; [constructor|].
  apply (Permutation_trans (insert_by_key_perm _ _)). now constructor.
Qed.

Lemma insert_by_key_ordered x l :
  StronglySorted (fun a b : Z * string => (fst a <= fst b)%Z) l ->
  StronglySorted (fun a b : Z * string => (fst a <= fst b)%Z)
                 (insert_by_key x l).
Proof.
  induction 1 as [|y l S IH F]; simpl.
  - repeat constructor.
  - destruct (Z.leb_spec (fst x) (fst y)) as [L|L].
    + constructor; [now constructor|].
      constructor; [exact L|].
      rewrite Forall_forall in *. intros z I. specialize (F z I). lia.
    + constructor; [exact IH|].
      apply Forall_forall. intros z I.
      apply (Permutation_in _ (insert_by_key_perm x l)) in I.
      destruct I as [<-|I]; [lia|].
      rewrite Forall_forall in F. now apply F.
Qed.

Lemma sort_by_key_ordered l :
  StronglySorted (fun a b : Z * string => (fst a <= fst b)%Z) (sort_by_key l).
Proof.
  induction l as [|x l IH]; simpl; [constructor|].
  now apply insert_by_key_ordered.
Qed.

Lemma ordered_by_number (s : list (Z * string)) :
  StronglySorted (fun a b : Z * string => (fst a <= fst b)%Z) s ->
  (forall e, In e s -> fst e = day_index (snd e)) ->
  StronglySorted by_number (map snd s).
Proof.
  induction 1 as [|e s S IH F]; intros D; simpl; [constructor|].
  constructor.
  - apply IH. intros e' I. apply D. now right.
  - apply Forall_forall. intros k I. apply in_map_iff in I as [e' [<- I]].
    unfold by_number. rewrite <- (D e) by now left.
    rewrite <- (D e') by now right.
    rewrite Forall_forall in F. now apply F.
Qed.

Lemma sorted_days_numbered status :
  (forall k, In k (keys status) -> numbered k) ->
  exists l,
    sorted_days status = Return l
    /\ Permutation l (keys status)
    /\ StronglySorted by_number l.
Proof.
  intros N. unfold sorted_days.
  rewrite (map_result_total _ (fun k => (day_index k, k))).
  2:{ intros k I. destruct (N k I) as [n E]. unfold day_index.
      now rewrite E. }
  cbn [bind]. eexists. split; [reflexivity|]. split.
  - apply (Permutation_trans
             (Permutation_map snd (sort_by_key_permutation _))).
    rewrite map_map. cbn [snd]. rewrite map_id. apply Permutation_refl.
  - apply ordered_by_number; [apply sort_by_key_ordered|].
    intros e I. apply (Permutation_in _ (sort_by_key_permutation _)) in I.
    apply in_map_iff in I as [k [<- _]]. reflexivity.
Qed.

Lemma map_result_decorated (ks : list string) decorated :
  map_result (fun x => n <- day_number x ;; Return (n, x)) ks
  = Return decorated ->
  map snd decorated = ks
  /\ forall k, In k ks -> numbered k.
Proof.
  revert decorated. induction ks as [|k ks IH]; intros decorated; simpl.
  - intros [= <-]. split; [reflexivity | intros k []].
  - destruct (day_number k) as [n|e] eqn:D; cbn [bind]; [|discriminate].
    destruct (map_result _ ks) as [rest|e]; cbn [bind]; [|discriminate].
    intros [= <-]. destruct (IH rest eq_refl) as [E N]. split.
    + simpl. now rewrite E.
    + intros k' [<-|I]; [now exists n | now apply N].
Qed.

(** When the keys can be sorted, every one of them is a number. *)
Lemma sorted_days_keys status l :
  sorted_days status = Return l ->
  Permutation l (keys status)
  /\ forall k, In k (keys status) -> numbered k.
Proof.
  unfold sorted_days.
  destruct (map_result _ (keys status)) as [decorated|e] eqn:E;
    cbn [bind]; [|discriminate].
  intros [= <-]. destruct (map_result_decorated _ _ E) as [M N].
  split; [|exact N]. rewrite <- M.
  apply Permutation_map, sort_by_key_permutation.
Qed.

Lemma dict_item_key {V : Type} (d : list (string * V)) k :
  In k (keys d) -> exists v, dict_find d k = Some v /\ dict_item d k = Return v.
Proof.
  intros I. unfold dict_item. destruct (dict_find d k) as [v|] eqn:E; [eauto|].
  apply dict_find_none in E. contradiction.
Qed.

Lemma detect_changes_numbered py_str current members l :
  sorted_days current = Return l -> Permutation l (keys current) ->
  detect_changes py_str current (JObject members)
  = Return (flat_map (change_of py_str current members) l).
Proof.
  intros S P. unfold detect_changes. rewrite S. cbn [bind].
  rewrite (for_each_collect _ (change_of py_str current members));
    [reflexivity|].
  intros acc k I. apply (Permutation_in _ P) in I.
  destruct (dict_item_key current k I) as [c [F ->]]. cbn [bind get_previous].
  unfold change_of. rewrite F.
  destruct (dict_get members k (JString "×")) as [|b|n|p|items|ms];
    cbn [differs format_value]; try reflexivity.
  destruct (String.eqb c p); cbn [negb]; [now rewrite app_nil_r | reflexivity].
Qed.

(** A value that is not a dict has no [get]. *)
Lemma detect_changes_no_get py_str current previous_status l :
  (forall members, previous_status <> JObject members) ->
  sorted_days current = Return l -> current <> [] ->
  detect_changes py_str current previous_status = Raise AttributeError.
Proof.
  intros N S NE. destruct (sorted_days_keys _ _ S) as [P _].
  unfold detect_changes. rewrite S. cbn [bind].
  destruct l as [|k l].
  { apply Permutation_nil in P. destruct current; [congruence | discriminate]. }
  cbn [for_each].
  assert (I : In k (keys current)) by (apply (Permutation_in _ P); now left).
  destruct (dict_item_key current k I) as [c [_ ->]]. cbn [bind].
  destruct previous_status; try reflexivity.
  now destruct (N members).
Qed.

Lemma available_days_numbered current l :
  sorted_days current = Return l -> Permutation l (keys current) ->
  available_days current = Return (flat_map (listing_of current) l).
Proof.
  intros S P. unfold available_days. rewrite S. cbn [bind].
  rewrite (for_each_collect _ (listing_of current)); [reflexivity|].
  intros acc k I. apply (Permutation_in _ P) in I.
  destruct (dict_item_key current k I) as [c [F ->]]. cbn [bind].
  unfold listing_of. rewrite F. change (gained c) with (is_available c).
  destruct (is_available c); [reflexivity | now rewrite app_nil_r].
Qed.

(** What [compare_and_notify] does when every key is a number, for
    every value of the state file. *)
Lemma compare_numbered py_str current previous_status posted l :
  sorted_days current = Return l ->
  compare_and_notify py_str current previous_status posted
  = if negb (truthy previous_status)
    then Return (posted
                 ++ [startup_text (flat_map (listing_of current) l)])%list
    else match previous_status with
         | JObject members =>
             match flat_map (change_of py_str current members) l with
             | [] => Return posted
             | (_ :: _) as lines => Return (posted ++ [change_text lines])%list
             end
         | _ => if is_empty current then Return posted
                else Raise AttributeError
         end.
Proof.
  intros S. destruct (sorted_days_keys _ _ S) as [P _].
  unfold compare_and_notify. destruct (truthy previous_status); cbn [negb].
  2:{ rewrite (available_days_numbered _ _ S P). cbn [bind].
      now rewrite startup_message_text. }
  assert (O : forall members,
             (changes <- detect_changes py_str current (JObject members) ;;
              if negb (is_empty changes)
              then Return (send_slack_notification (change_message changes)
                                                   posted)
              else Return posted)
             = match flat_map (change_of py_str current members) l with
               | [] => Return posted
               | (_ :: _) as lines =>
                   Return (posted ++ [change_text lines])%list
               end).
  { intros members. rewrite (detect_changes_numbered _ _ _ _ S P). cbn [bind].
    now destruct (flat_map (change_of py_str current members) l). }
  assert (X : forall v, (forall members, v <> JObject members) ->
             (changes <- detect_changes py_str current v ;;
              if negb (is_empty changes)
              then Return (send_slack_notification (change_message changes)
                                                   posted)
              else Return posted)
             = if is_empty current then Return posted
               else Raise AttributeError).
  { intros v N. destruct current as [|kv current].
    - vm_compute in S. injection S as <-.
      unfold detect_changes. reflexivity.
    - rewrite (detect_changes_no_get py_str _ v l N S); [reflexivity|].
      discriminate. }
  destruct previous_status; try (apply X; discriminate). apply O.
Qed.

(** X3: when [int] accepts every key of the current map (the days of
    the month, and any other numbered key a page made),
    [compare_and_notify] reads the keys by ascending number, whatever
    the order of the map, and what it does depends on the value
    [json.load] returned.  A value that is empty or null, false or zero
    gives the startup message with the keys that are open or limited.
    A dict that is not empty gives the change message, with one line
    for each key whose status differs from the stored value ([×] when
    the dict has no such key), or nothing when no status differs.  Any
    other value makes [get] raise [AttributeError], unless the current
    map is empty. *)
Theorem numbered_keys_compare_returns
  (py_str : json -> string) (current : dict) (previous_status : json)
  (posted : list string) :
  (forall k, In k (keys current) -> numbered k) ->
  exists l,
    sorted_days current = Return l
    /\ Permutation l (keys current)
    /\ StronglySorted by_number l
    /\ compare_and_notify py_str current previous_status posted
       = if negb (truthy previous_status)
         then Return (posted
                      ++ [startup_text (flat_map (listing_of current) l)])%list
         else match previous_status with
              | JObject members =>
                  match flat_map (change_of py_str current members) l with
                  | [] => Return posted
                  | (_ :: _) as lines =>
                      Return (posted ++ [change_text lines])%list
                  end
              | _ => if is_empty current then Return posted
                     else Raise AttributeError
              end.
Proof.
  intros N. destruct (sorted_days_numbered current N) as [l [S [P O]]].
  exists l. split; [exact S|]. split; [exact P|]. split; [exact O|].
  apply (compare_numbered _ _ _ _ _ S).
Qed.

Lemma numbered_keys_compare_returns_witness :
  compare_and_notify unprinted
    (dict_set (dict_set initial_availability (day_key 28) Limited)
              (day_key 31) Available)
    (status_object day5_open) []
  = Return [change_text ["😢 *2月5日*: ○ → ×";
                         "🎉 *2月28日*: × → △";
                         "🎉 *2月31日*: × → ○"]].
Proof.
  destruct (numbered_keys_compare_returns unprinted
              (dict_set (dict_set initial_availability (day_key 28) Limited)
                        (day_key 31) Available)
              (status_object day5_open) [])
    as [l [S [_ [_ C]]]].
  - intros k I. vm_compute in I.
    repeat (destruct I as [<-|I]; [eexists; vm_compute; reflexivity|]).
    destruct I.
  - vm_compute in S. injection S as <-. exact C.
Defined.

(** ** What the cells of the calendar write *)

Lemma dict_find_app {V : Type} (a b : list (string * V)) k :
  dict_find (a ++ b)%list k
  = match dict_find a k with
    | Some v => Some v
    | None => dict_find b k
    end.
Proof.
  induction a as [|[k0 v0] a IH]; simpl; [reflexivity|].
  destruct (String.eqb k0 k); [reflexivity | exact IH].
Qed.

Lemma find_fold_writes cells availability k :
  dict_find (fold_left apply_write cells availability) k
  = match dict_find (rev (writes cells)) k with
    | Some v => Some v
    | None => dict_find availability k
    end.
Proof.
  revert availability. induction cells as [|c cells IH]; intros a;
    [reflexivity|].
  cbn [fold_left]. rewrite IH. unfold writes. cbn [flat_map].
  rewrite rev_app_distr, dict_find_app.
  fold (writes cells).
  destruct (dict_find (rev (writes cells)) k); [reflexivity|].
  unfold apply_write, write_of.
  destruct (cell_write c) as [[k' v']|]; [|reflexivity].
  cbn [rev app dict_find]. rewrite dict_find_set.
  destruct (String.eqb k' k); reflexivity.
Qed.

Lemma writes_perm cells cells' :
  Permutation cells cells' -> Permutation (writes cells) (writes cells').
Proof.
  induction 1 as [|c l l' P IH|c c' l|l l' l'' P IH P' IH'].
  - constructor.
  - unfold writes. cbn [flat_map]. now apply Permutation_app_head.
  - unfold writes. cbn [flat_map]. rewrite !app_assoc.
    apply Permutation_app_tail, Permutation_app_comm.
  - now apply (Permutation_trans IH).
Qed.

(** X4: after the loop over the cells, the status of a key is the
    marker of the last cell of the calendar that writes the key, and
    the initial status (Full for a day of the month, no entry for
    another key) when no cell writes it. *)
Theorem last_marker_decides (soup calendar : node) :
  nth_error (find_all "table" soup) 2 = Some calendar ->
  exists m,
    extract_calendar soup = Return (Some m)
    /\ forall k,
        dict_find m k
        = match dict_find (rev (writes (find_all "td" calendar))) k with
          | Some status => Some status
          | None => dict_find initial_availability k
          end.
Proof.
  intros T. eexists. split; [apply (extract_calendar_found _ _ T)|].
  intros k. apply find_fold_writes.
Qed.

Lemma last_marker_decides_witness :
  exists m,
    extract_calendar page_day5_twice = Return (Some m)
    /\ dict_find m (day_key 5) = Some Limited
    /\ dict_find m (day_key 6) = Some Full
    /\ dict_find m "2月31日" = None.
Proof.
  destruct (last_marker_decides page_day5_twice
              (calendar_table [day_cell "5" "○"; day_cell "5" "△"]))
    as [m [E F]].
  - reflexivity.
  - exists m. split; [exact E|]. rewrite !F.
    split; [|split]; vm_compute; reflexivity.
Defined.

(** X5: when no two cells of the calendar write the same key, the order
    of the cells does not matter: two pages whose calendars hold the
    same cells in different orders give every key the same status. *)
Theorem cell_order_is_irrelevant (soup soup' calendar calendar' : node) :
  nth_error (find_all "table" soup) 2 = Some calendar ->
  nth_error (find_all "table" soup') 2 = Some calendar' ->
  Permutation (find_all "td" calendar) (find_all "td" calendar') ->
  NoDup (keys (writes (find_all "td" calendar))) ->
  exists m m',
    extract_calendar soup = Return (Some m)
    /\ extract_calendar soup' = Return (Some m')
    /\ forall k, dict_find m k = dict_find m' k.
Proof.
  intros T T' P ND. do 2 eexists.
  split; [apply (extract_calendar_found _ _ T)|].
  split; [apply (extract_calendar_found _ _ T')|].
  intros k. rewrite !find_fold_writes.
  assert (Q : Permutation (rev (writes (find_all "td" calendar)))
                          (rev (writes (find_all "td" calendar')))).
  { apply (Permutation_trans (Permutation_sym (Permutation_rev _))).
    apply (Permutation_trans (writes_perm _ _ P)), Permutation_rev. }
  assert (N : NoDup (keys (rev (writes (find_all "td" calendar)))))
    by apply (Permutation_NoDup (Permutation_map fst (Permutation_rev _)) ND).
  now rewrite (dict_find_perm _ _ k N Q).
Qed.

Lemma cell_order_is_irrelevant_witness :
  exists m m',
    extract_calendar (page [day_cell "5" "○"; day_cell "7" "△"])
    = Return (Some m)
    /\ extract_calendar (page [day_cell "7" "△"; day_cell "5" "○"])
       = Return (Some m')
    /\ forall k, dict_find m k = dict_find m' k.
Proof.
  apply (cell_order_is_irrelevant
           (page [day_cell "5" "○"; day_cell "7" "△"])
           (page [day_cell "7" "△"; day_cell "5" "○"])
           (calendar_table [day_cell "5" "○"; day_cell "7" "△"])
           (calendar_table [day_cell "7" "△"; day_cell "5" "○"])).
  - reflexivity.
  - reflexivity.
  - apply perm_swap.
  - vm_compute. repeat constructor; simpl; intuition discriminate.
Defined.

(** ** What an extraction returns *)




Lemma availability_inv fetched current :
  get_availability_status fetched = Some current ->
  exists r, fetched = Return r /\ status_code r = 200%Z
            /\ extract_calendar (soup r) = Return (Some current).
Proof.
  unfold get_availability_status. destruct fetched as [r|e]; [|discriminate].
  cbn [bind]. destruct (Z.eqb_spec (status_code r) 200) as [E|N];
    [|discriminate].
  cbn [negb]. destruct (extract_calendar (soup r)) as [o|e] eqn:X;
    [|discriminate].
  intros ->. eauto.
Qed.

Lemma extracted_not_empty soup m :
  extract_calendar soup = Return (Some m) -> is_empty m = false.
Proof.
  intros E. apply extract_calendar_inv in E as [calendar [_ ->]].
  assert (I : In (day_key 1) (keys (fold_left apply_write
                                      (find_all "td" calendar)
                                      initial_availability))).
  { apply keys_fold_incl. rewrite keys_initial. unfold day_keys.
    apply in_map, in_days. lia. }
  destruct (fold_left apply_write (find_all "td" calendar)
                      initial_availability); [destruct I | reflexivity].
Qed.

Lemma extracted_NoDup soup m :
  extract_calendar soup = Return (Some m) -> NoDup (keys m).
Proof.
  intros E. apply extract_calendar_inv in E as [calendar [_ ->]].
  apply NoDup_keys_fold. rewrite keys_initial. apply NoDup_day_keys.
Qed.



(** ** Turns of the loop, one after the other *)

Lemma dict_get_object m k :
  dict_get (map (fun kv => (fst kv, JString (snd kv))) m) k (JString "×")
  = JString (dict_get m k "×").
Proof.
  unfold dict_get. rewrite dict_find_object. now destruct (dict_find m k).
Qed.

Lemma change_of_same py_str current k :
  change_of py_str current
            (map (fun kv => (fst kv, JString (snd kv))) current) k = [].
Proof.
  unfold change_of. rewrite dict_get_object. unfold dict_get.
  destruct (dict_find current k) as [c|]; [|reflexivity].
  now rewrite String.eqb_refl.
Qed.

Lemma flat_map_nil {A B : Type} (f : A -> list B) l :
  (forall x, f x = []) -> flat_map f l = [].
Proof.
  intros H. induction l as [|x l IH]; [reflexivity|].
  cbn [flat_map]. now rewrite H, IH.
Qed.

Lemma compare_returns_sorted py_str current previous_status posted p :
  compare_and_notify py_str current previous_status posted = Return p ->
  exists l, sorted_days current = Return l.
Proof.
  unfold compare_and_notify, available_days, detect_changes.
  destruct (sorted_days current) as [l|e]; [eauto|].
  destruct (negb (truthy previous_status)); discriminate.
Qed.

(** When it returns, [compare_and_notify] has added at most one
    message, the same whatever was posted before. *)
Lemma compare_appends py_str current previous_status l posted p :
  sorted_days current = Return l ->
  compare_and_notify py_str current previous_status posted = Return p ->
  exists new,
    (List.length new <= 1)%nat
    /\ forall posted',
        compare_and_notify py_str current previous_status posted'
        = Return (posted' ++ new)%list.
Proof.
  intros S C. rewrite (compare_numbered _ _ _ _ _ S) in C.
  destruct (negb (truthy previous_status)) eqn:T.
  { eexists. split; [|intros posted';
                       rewrite (compare_numbered _ _ _ _ _ S), T; reflexivity].
    simpl. lia. }
  destruct previous_status as [|b|n|s|items|members].
  6:{ destruct (flat_map (change_of py_str current members) l) as [|x xs] eqn:F.
      - exists []. split; [simpl; lia|]. intros posted'.
        rewrite (compare_numbered _ _ _ _ _ S), T, F. now rewrite app_nil_r.
      - eexists. split; [|intros posted';
                           rewrite (compare_numbered _ _ _ _ _ S), T, F;
                           reflexivity].
        simpl. lia. }
  all: destruct (is_empty current) eqn:NE; [|discriminate];
    exists []; (split; [simpl; lia|]); intros posted';
    rewrite (compare_numbered _ _ _ _ _ S), T, NE; now rewrite app_nil_r.
Qed.

Lemma compare_same py_str current posted l :
  sorted_days current = Return l ->
  is_empty current = false ->
  compare_and_notify py_str current (status_object current) posted
  = Return posted.
Proof.
  intros S NE. rewrite (compare_numbered _ _ _ _ _ S).
  rewrite truthy_object, NE. cbn [negb]. unfold status_object.
  now rewrite (flat_map_nil _ _ (change_of_same py_str current)).
Qed.

Lemma load_saved current state :
  NoDup (keys current) ->
  as_status_dict (load_previous_state (save_current_state WriteOk current state))
  = Some current.
Proof.
  intros ND. cbn [save_current_state load_previous_state].
  rewrite (loads_dumps current ND). apply as_status_dict_object.
Qed.

Lemma load_dumped current :
  NoDup (keys current) ->
  load_previous_state (Text (Json.dumps current)) = status_object current.
Proof.
  intros ND. cbn [load_previous_state]. now rewrite (loads_dumps current ND).
Qed.

(** A turn that ends in sleep after a successful extraction: the keys
    were sorted, at most one message was added, and the disk was asked
    to save the current map. *)
Lemma cycle_sleeps py_str fetched d w w1 current :
  get_availability_status fetched = Some current ->
  cycle py_str fetched d w = Sleeps w1 ->
  exists l new,
    sorted_days current = Return l
    /\ (List.length new <= 1)%nat
    /\ (forall posted,
          compare_and_notify py_str current
            (load_previous_state (state_file w)) posted
          = Return (posted ++ new)%list)
    /\ w1 = mk_world (slack w ++ new)%list
                     (save_current_state d current (state_file w)).
Proof.
  intros G C. destruct (availability_inv _ _ G) as [r [_ [_ X]]].
  unfold cycle in C. rewrite G, (extracted_not_empty _ _ X) in C.
  cbv zeta in C.
  destruct (compare_and_notify py_str current
              (load_previous_state (state_file w)) (slack w))
    as [p|e] eqn:E; [|discriminate].
  destruct (compare_returns_sorted _ _ _ _ _ E) as [l S].
  destruct (compare_appends _ _ _ _ _ _ S E) as [new [B A]].
  exists l, new. split; [exact S|]. split; [exact B|]. split; [exact A|].
  rewrite A in E. injection E as <-. now injection C as <-.
Qed.

(** A turn on a page whose map is the one in the state file. *)
Lemma cycle_same py_str fetched d posted current l :
  get_availability_status fetched = Some current ->
  sorted_days current = Return l ->
  cycle py_str fetched d (mk_world posted (Text (Json.dumps current)))
  = Sleeps (mk_world posted
              (save_current_state d current (Text (Json.dumps current)))).
Proof.
  intros G S. destruct (availability_inv _ _ G) as [r [_ [_ X]]].
  unfold cycle. cbn [state_file slack].
  rewrite G, (extracted_not_empty _ _ X).
  rewrite (load_dumped _ (extracted_NoDup _ _ X)). cbv zeta.
  now rewrite (compare_same _ _ _ _ S (extracted_not_empty _ _ X)).
Qed.

(** X7: whatever map an extraction returns, with whatever extra keys,
    it is saved and loaded back unchanged when the disk takes the
    write: same entries, same order. *)
Theorem extracted_map_survives_the_file
  (fetched : result response) (current : dict) (state : file) :
  get_availability_status fetched = Some current ->
  load_previous_state (save_current_state WriteOk current state)
  = status_object current
  /\ as_status_dict
       (load_previous_state (save_current_state WriteOk current state))
     = Some current.
Proof.
  intros G. destruct (availability_inv _ _ G) as [r [_ [_ X]]].
  pose proof (extracted_NoDup _ _ X) as ND. split.
  - cbn [save_current_state load_previous_state].
    now rewrite (loads_dumps current ND).
  - apply (load_saved _ _ ND).
Qed.

Lemma extracted_map_survives_the_file_witness :
  as_status_dict
    (load_previous_state
       (save_current_state WriteOk
          (dict_set (dict_set initial_availability (day_key 5) Limited)
                    "2月soon日" Available)
          NoFile))
  = Some (dict_set (dict_set initial_availability (day_key 5) Limited)
                   "2月soon日" Available).
Proof.
  apply (extracted_map_survives_the_file
           (Return (mk_response 200 page_malformed))).
  reflexivity.
Defined.

(** X8: when a turn with a successful extraction and an accepted write
    ends in sleep, the state file holds the map of the page, and the
    next turn on the same page finds no difference and posts nothing,
    whatever the state file held before. *)
Theorem unchanged_page_is_silent
  (py_str : json -> string) (fetched : result response) (d : disk)
  (w w1 : world) (current : dict) :
  get_availability_status fetched = Some current ->
  cycle py_str fetched WriteOk w = Sleeps w1 ->
  state_file w1 = Text (Json.dumps current)
  /\ load_previous_state (state_file w1) = status_object current
  /\ cycle py_str fetched d w1
     = Sleeps (mk_world (slack w1)
                        (save_current_state d current (state_file w1))).
Proof.
  intros G C. destruct (availability_inv _ _ G) as [r [_ [_ X]]].
  destruct (cycle_sleeps _ _ _ _ _ _ G C) as [l [new [S [_ [_ ->]]]]].
  cbn [state_file slack save_current_state].
  split; [reflexivity|].
  split; [apply (load_dumped _ (extracted_NoDup _ _ X))|].
  apply (cycle_same _ _ _ _ _ _ G S).
Qed.

Lemma unchanged_page_is_silent_witness :
  main_loop unprinted
            [(Return (mk_response 200 page_day5_open), WriteOk);
             (Return (mk_response 200 page_day5_open), WriteOk)]
            (mk_world [] (Text "[]"))
  = Sleeps (mk_world [startup_text ["  • 2月5日: ○"]]
                     (Text (Json.dumps day5_open))).
Proof.
  destruct (unchanged_page_is_silent unprinted
              (Return (mk_response 200 page_day5_open)) WriteOk
              (mk_world [] (Text "[]"))
              (mk_world [startup_text ["  • 2月5日: ○"]]
                        (Text (Json.dumps day5_open)))
              day5_open)
    as [_ [_ C2]].
  - reflexivity.
  - vm_compute. reflexivity.
  - cbn [main_loop].
    replace (cycle unprinted (Return (mk_response 200 page_day5_open)) WriteOk
               (mk_world [] (Text "[]")))
      with (Sleeps (mk_world [startup_text ["  • 2月5日: ○"]]
                             (Text (Json.dumps day5_open))))
      by (vm_compute; reflexivity).
    rewrite C2. reflexivity.
Defined.

(** X9: the state is written after the message is posted.  When a turn
    with a successful extraction ends in sleep but its write failed and
    left the file as it was, the next turn on the same page compares
    with the same old state and posts the same message again. *)
Theorem failed_write_repeats_the_message
  (py_str : json -> string) (fetched : result response) (w w1 : world)
  (current : dict) :
  get_availability_status fetched = Some current ->
  cycle py_str fetched (WriteFails (state_file w)) w = Sleeps w1 ->
  exists new,
    (List.length new <= 1)%nat
    /\ w1 = mk_world (slack w ++ new)%list (state_file w)
    /\ cycle py_str fetched (WriteFails (state_file w)) w1
       = Sleeps (mk_world ((slack w ++ new) ++ new)%list (state_file w)).
Proof.
  intros G C. destruct (availability_inv _ _ G) as [r [_ [_ X]]].
  destruct (cycle_sleeps _ _ _ _ _ _ G C) as [l [new [S [B [A ->]]]]].
  exists new. split; [exact B|]. cbn [save_current_state].
  split; [reflexivity|].
  unfold cycle. cbn [state_file slack].
  rewrite G, (extracted_not_empty _ _ X). cbv zeta. now rewrite A.
Qed.

Lemma failed_write_repeats_the_message_witness :
  main_loop unprinted
            [(Return (mk_response 200 page_day5_open), WriteFails NoFile);
             (Return (mk_response 200 page_day5_open), WriteFails NoFile)]
            (mk_world [] NoFile)
  = Sleeps (mk_world [startup_text ["  • 2月5日: ○"];
                      startup_text ["  • 2月5日: ○"]]
                     NoFile).
Proof.
  destruct (failed_write_repeats_the_message unprinted
              (Return (mk_response 200 page_day5_open))
              (mk_world [] NoFile)
              (mk_world [startup_text ["  • 2月5日: ○"]] NoFile)
              day5_open)
    as [new [_ [E C2]]].
  - reflexivity.
  - vm_compute. reflexivity.
  - injection E as E. cbn [slack app] in E. subst new.
    cbn [main_loop state_file slack app] in *.
    replace (cycle unprinted (Return (mk_response 200 page_day5_open))
               (WriteFails NoFile) (mk_world [] NoFile))
      with (Sleeps (mk_world [startup_text ["  • 2月5日: ○"]] NoFile))
      by (vm_compute; reflexivity).
    rewrite C2. reflexivity.
Defined.

Lemma main_loop_steady py_str fetched current posted l n :
  get_availability_status fetched = Some current ->
  sorted_days current = Return l ->
  main_loop py_str (repeat (fetched, WriteOk) n)
            (mk_world posted (Text (Json.dumps current)))
  = Sleeps (mk_world posted (Text (Json.dumps current))).
Proof.
  intros G S. induction n as [|n IH]; [reflexivity|].
  cbn [repeat main_loop]. now rewrite (cycle_same _ _ _ _ _ _ G S).
Qed.

(** X10: a page that does not change is reported once.  With a webhook
    address, when the first turn on the page (the extraction succeeds,
    the disk takes the writes) ends in sleep, it has posted at most one
    message, and however many turns follow on the same page, none of
    them posts anything: the loop is where the first turn left it, the
    state file holding the map of the page. *)
Theorem steady_page_is_reported_once
  (py_str : json -> string) (url : string) (fetched : result response)
  (w w1 : world) (current : dict) (n : nat) :
  url <> "" ->
  get_availability_status fetched = Some current ->
  cycle py_str fetched WriteOk w = Sleeps w1 ->
  (exists new,
      (List.length new <= 1)%nat
      /\ w1 = mk_world (slack w ++ new)%list (Text (Json.dumps current)))
  /\ main py_str (Some url) (repeat (fetched, WriteOk) (S n)) w = Sleeps w1.
Proof.
  intros U G C.
  destruct (cycle_sleeps _ _ _ _ _ _ G C) as [l [new [S [B [A E]]]]].
  cbn [save_current_state] in E. split; [now exists new|].
  unfold main. destruct (String.eqb_spec url ""); [contradiction|].
  cbn [repeat main_loop]. rewrite C, E.
  apply (main_loop_steady _ _ _ _ _ _ G S).
Qed.

Lemma steady_page_is_reported_once_witness :
  main unprinted (Some "https://hooks.slack.com/services/T0/B0/x")
       (repeat (Return (mk_response 200 page_day5_open), WriteOk) 5)
       (mk_world [] NoFile)
  = Sleeps (mk_world [startup_text ["  • 2月5日: ○"]]
                     (Text (Json.dumps day5_open))).
Proof.
  apply (steady_page_is_reported_once unprinted
           "https://hooks.slack.com/services/T0/B0/x"
           (Return (mk_response 200 page_day5_open))
           (mk_world [] NoFile)
           (mk_world [startup_text ["  • 2月5日: ○"]]
                     (Text (Json.dumps day5_open)))
           day5_open 4).
  - discriminate.
  - reflexivity.
  - vm_compute. reflexivity.
Defined.

(** ** The first run, and a state file that is no map *)

Lemma open_days_increasing current : StronglySorted Z.lt (open_days current).
Proof. unfold open_days. apply filter_increasing, days_increasing. Qed.

(** X14: when [json.load] returns nothing to compare with (there is no
    state file, it cannot be read, its text is not JSON, or it holds an
    empty or null, false or zero value), the turn on a page that gives a
    DayStatusMap is the one of the first run: it posts the startup
    message, which lists the days that are open or limited, each with
    its status, by ascending day, or says that no day is available, and
    asks the disk to save the map. *)
Theorem first_run_posts_snapshot
  (py_str : json -> string) (fetched : result response) (d : disk)
  (posted : list string) (state : file) (current : dict) :
  truthy (load_previous_state state) = false ->
  get_availability_status fetched = Some current ->
  DayStatusMap current ->
  cycle py_str fetched d (mk_world posted state)
  = Sleeps (mk_world
              (posted
               ++ [startup_text (map (day_listing current)
                                     (open_days current))])%list
              (save_current_state d current state))
  /\ StronglySorted Z.lt (open_days current)
  /\ (forall i, In i (open_days current) <->
                In i days /\ (status_of current i = Available
                              \/ status_of current i = Limited))
  /\ (forall i, In i days ->
        dict_find current ("2月" ++ numeral i ++ "日")
        = Some (status_of current i))
  /\ (forall state', absent state' ->
                     truthy (load_previous_state state') = false).
Proof.
  intros F G M. split.
  { rewrite (cycle_first_run _ _ _ _ _ _ G M F).
    now rewrite startup_message_text, snapshot_listing. }
  split; [apply open_days_increasing|]. split.
  { intros i. unfold open_days. rewrite filter_In. unfold gained.
    rewrite orb_true_iff, !String.eqb_eq. reflexivity. }
  split.
  - intros i Hi. change ("2月" ++ numeral i ++ "日") with (day_key i).
    unfold status_of, dict_get.
    destruct (dict_find current (day_key i)) eqn:E; [reflexivity|].
    exfalso. apply dict_find_none in E. apply E.
    apply (Permutation_in _ (Permutation_sym (DayStatusMap_keys _ M))).
    unfold day_keys. now apply in_map.
  - intros state' A. now rewrite (load_absent _ A).
Qed.

Lemma first_run_posts_snapshot_witness :
  cycle unprinted (Return (mk_response 200 page_day5_open)) WriteOk
        (mk_world [] (Text "{oops"))
  = Sleeps (mk_world [startup_text ["  • 2月5日: ○"]]
                     (Text (Json.dumps day5_open))).
Proof.
  destruct (first_run_posts_snapshot unprinted
              (Return (mk_response 200 page_day5_open)) WriteOk []
              (Text "{oops") day5_open)
    as [H _].
  - reflexivity.
  - reflexivity.
  - exact DayStatusMap_day5_open.
  - exact H.
Defined.

(** X15: a state file that holds a value [json.load] accepts, that is
    not empty, null, false or zero, and that is not a dict (a list, a
    string, a number, [true]) stops the monitor: when [int] accepts the
    keys of the extracted map, [previous_status.get] raises
    [AttributeError] for the first key, the turn posts nothing and
    saves nothing, and the exception ends the loop. *)
Theorem stored_value_without_get_stops
  (py_str : json -> string) (fetched : result response) (d : disk)
  (w : world) (current : dict) (after : list (result response * disk)) :
  get_availability_status fetched = Some current ->
  (forall k, In k (keys current) -> numbered k) ->
  truthy (load_previous_state (state_file w)) = true ->
  (forall members, load_previous_state (state_file w) <> JObject members) ->
  cycle py_str fetched d w = Stops AttributeError w
  /\ main_loop py_str ((fetched, d) :: after) w = Stops AttributeError w.
Proof.
  intros G N T O. destruct (availability_inv _ _ G) as [r [_ [_ X]]].
  pose proof (extracted_not_empty _ _ X) as NE.
  destruct (sorted_days_numbered current N) as [l [S _]].
  assert (C : cycle py_str fetched d w = Stops AttributeError w).
  { unfold cycle. rewrite G, NE. cbv zeta.
    rewrite (compare_numbered _ _ _ _ _ S), T, NE. cbn [negb].
    destruct (load_previous_state (state_file w)); try reflexivity.
    now destruct (O members). }
  split; [exact C|]. cbn [main_loop]. now rewrite C.
Qed.

Lemma stored_value_without_get_stops_witness :
  main_loop unprinted
            [(Return (mk_response 200 page_day5_open), WriteOk);
             (Return (mk_response 200 page_day5_open), WriteOk)]
            (mk_world [] (Text "1e-323"))
  = Stops AttributeError (mk_world [] (Text "1e-323")).
Proof.
  apply (stored_value_without_get_stops unprinted
           (Return (mk_response 200 page_day5_open)) WriteOk
           (mk_world [] (Text "1e-323")) day5_open).
  - reflexivity.
  - intros k I.
    apply (Permutation_in _ (DayStatusMap_keys _ DayStatusMap_day5_open)) in I.
    apply in_map_iff in I as [i [<- I]]. exists i.
    now apply day_number_day_key.
  - vm_compute. reflexivity.
  - intros members. vm_compute. discriminate.
Defined.

(** ** The date parameter of a well-formed address *)

Section Addresses.
Import PyStr.

Lemma append_nil_r s : s ++ "" = s.
Proof. induction s as [|c s IH]; simpl; [reflexivity | now rewrite IH]. Qed.

Lemma starts_with_app p r : starts_with p (p ++ r) = true.
Proof.
  induction p as [|c p IH]; simpl; [now destruct r|].
  now rewrite Ascii.eqb_refl, IH.
Qed.

Lemma contains_app_sep a sep r : contains sep (a ++ sep ++ r) = true.
Proof.
  induction a as [|c a IH]; cbn [append].
  - destruct (sep ++ r) eqn:E; cbn [contains]; rewrite <- E;
      now rewrite starts_with_app.
  - cbn [contains]. rewrite IH. apply orb_true_r.
Qed.

Lemma contains_cons sep c s :
  contains sep (String c s) = false ->
  starts_with sep (String c s) = false /\ contains sep s = false.
Proof. cbn [contains]. apply orb_false_iff. Qed.

(** A text without the separator is one piece. *)
Lemma split_without a p s :
  contains (String a p) s = false -> split (String a p) s = [s].
Proof.
  unfold split. induction s as [|c s IH]; intros H; [reflexivity|].
  apply contains_cons in H as [S C]. cbn [split_go]. rewrite S.
  now rewrite (IH C).
Qed.

(** With a separator of one character, the pieces of [a ++ x ++ b] are
    those of [a] followed by those of [b]. *)
Lemma split_char_first x a b :
  contains (String x "") a = false ->
  split (String x "") (a ++ String x b) = a :: split (String x "") b.
Proof.
  unfold split. induction a as [|c a IH]; intros H; cbn [append split_go].
  - cbn [starts_with]. rewrite Ascii.eqb_refl. destruct b; reflexivity.
  - apply contains_cons in H as [S C]. cbn [starts_with] in *.
    destruct (Ascii.eqb x c); [destruct a; discriminate|].
    cbn [andb]. now rewrite (IH C).
Qed.

Lemma last_cons_cons {A : Type} (x y : A) l d :
  last (x :: y :: l) d = last (y :: l) d.
Proof. reflexivity. Qed.

Lemma split_char_last x a b d :
  last (split (String x "") (a ++ String x b)) d
  = last (split (String x "") b) d.
Proof.
  unfold split. induction a as [|c a IH]; cbn [append split_go].
  - cbn [starts_with]. rewrite Ascii.eqb_refl.
    replace (true && match b with "" => true | String _ _ => true end)
      with true by (now destruct b).
    cbn [String.length Nat.sub].
    pose proof (split_go_not_nil (String x "") 0 b) as N.
    destruct (split_go (String x "") 0 b); [congruence | reflexivity].
  - pose proof (contains_split_length x "" (a ++ String x b)
                  (contains_app_sep a (String x "") b)) as L.
    unfold split in L.
    destruct (starts_with (String x "") (String c (a ++ String x b))).
    + cbn [String.length Nat.sub].
      destruct (split_go (String x "") 0 (a ++ String x b)) as [|p [|q l]];
        simpl in L; try lia. rewrite last_cons_cons. exact IH.
    + destruct (split_go (String x "") 0 (a ++ String x b)) as [|p [|q l]];
        simpl in L; try lia. rewrite last_cons_cons.
      rewrite last_cons_cons in IH. exact IH.
Qed.

(** No occurrence of [ynj=] starts in a prefix that has none and runs
    into the separator that follows it. *)
Lemma no_straddle c p r :
  starts_with "ynj=" (String c p) = false ->
  starts_with "ynj=" (String c (p ++ "ynj=" ++ r)) = false.
Proof.
  destruct p as [|c1 [|c2 [|c3 p]]]; cbn [append starts_with]; intros H.
  - destruct (Ascii.eqb "y" c); reflexivity.
  - destruct (Ascii.eqb "y" c), (Ascii.eqb "n" c1); reflexivity.
  - destruct (Ascii.eqb "y" c), (Ascii.eqb "n" c1), (Ascii.eqb "j" c2);
      reflexivity.
  - destruct (Ascii.eqb "y" c), (Ascii.eqb "n" c1), (Ascii.eqb "j" c2),
      (Ascii.eqb "=" c3); try reflexivity.
    destruct p; discriminate.
Qed.

Lemma split_ynj_first prefix r :
  contains "ynj=" prefix = false ->
  split "ynj=" (prefix ++ "ynj=" ++ r) = prefix :: split "ynj=" r.
Proof.
  unfold split. induction prefix as [|c p IH]; intros H.
  - cbn [append split_go starts_with]. rewrite !Ascii.eqb_refl.
    destruct r; reflexivity.
  - apply contains_cons in H as [S C].
    change (String c p ++ "ynj=" ++ r) with (String c (p ++ "ynj=" ++ r)).
    cbn [split_go]. rewrite (no_straddle c p r S). now rewrite (IH C).
Qed.

(** X11: the day is read back from an address of the expected shape.
    When the address is a prefix without [ynj=], then [ynj=], then a
    date that ends in a hyphen and the day, then nothing or an anchor
    after [#], and neither the date nor the anchor brings a second
    [ynj=], the script takes the address for a day-link and reads
    exactly the day. *)
Theorem day_of_well_formed_address (prefix front day tail : string) :
  contains "ynj=" prefix = false ->
  contains "ynj=" (front ++ "-" ++ day ++ tail) = false ->
  contains "#" (front ++ "-" ++ day) = false ->
  contains "-" day = false ->
  (tail = "" \/ exists anchor, tail = "#" ++ anchor) ->
  contains "ynj=" (prefix ++ "ynj=" ++ front ++ "-" ++ day ++ tail) = true
  /\ href_day (prefix ++ "ynj=" ++ front ++ "-" ++ day ++ tail) = day.
Proof.
  intros P R H D T. split; [apply contains_app_sep|].
  unfold href_day. rewrite (split_ynj_first _ _ P).
  rewrite (split_without _ _ _ R). cbn [nth].
  assert (E : hd "" (split "#" (front ++ "-" ++ day ++ tail))
              = front ++ "-" ++ day).
  { destruct T as [->|[anchor ->]].
    - rewrite append_nil_r. now rewrite (split_without _ _ _ H).
    - replace (front ++ "-" ++ day ++ "#" ++ anchor)
        with ((front ++ "-" ++ day) ++ String "#" anchor)
        by (now rewrite !append_assoc).
      now rewrite (split_char_first _ _ _ H). }
  rewrite E.
  change (front ++ "-" ++ day) with (front ++ String "-" day).
  rewrite split_char_last. now rewrite (split_without _ _ _ D).
Qed.

End Addresses.

Lemma day_of_well_formed_address_witness :
  PyStr.contains "ynj=" (day_href "17") = true
  /\ href_day (day_href "17") = "17".
Proof.
  apply (day_of_well_formed_address "new.php?ym=2026-02&" "2026-2" "17"
                                    "#calendar");
    try reflexivity.
  right. exists "calendar". reflexivity.
Defined.

(** ** Markers under white space and nested tags *)

Section Markers.
Import PyStr.

Lemma starts_with_app_l p a b :
  starts_with p a = true -> starts_with p (a ++ b) = true.
Proof.
  revert a. induction p as [|c p IH]; intros a H.
  - now destruct (a ++ b).
  - destruct a as [|x a]; [discriminate|]. cbn [append starts_with] in *.
    apply andb_true_iff in H as [E H]. now rewrite E, (IH _ H).
Qed.

Lemma contains_app_l sub a b :
  contains sub a = true -> contains sub (a ++ b) = true.
Proof.
  induction a as [|c a IH]; intros H.
  - cbn [contains] in H. rewrite orb_false_r in H.
    destruct sub; [|discriminate]. now destruct (""%string ++ b).
  - cbn [append contains] in *. apply orb_true_iff in H as [H|H].
    + change (String c (a ++ b)) with (String c a ++ b).
      now rewrite (starts_with_app_l _ _ _ H).
    + rewrite (IH H). apply orb_true_r.
Qed.

Lemma contains_app_r sub a b :
  contains sub b = true -> contains sub (a ++ b) = true.
Proof.
  intros H. induction a as [|c a IH]; [exact H|].
  cbn [append contains]. rewrite IH. apply orb_true_r.
Qed.

Lemma contains_join sub p pieces :
  In p pieces -> contains sub p = true ->
  contains sub (join "" pieces) = true.
Proof.
  unfold join. intros I H. induction pieces as [|x l IH]; [contradiction|].
  destruct l as [|y l].
  - destruct I as [->|[]]. exact H.
  - change (String.concat "" (x :: y :: l))
      with (x ++ String.concat "" (y :: l)).
    destruct I as [->|I]; [now apply contains_app_l|].
    apply contains_app_r. now apply IH.
Qed.

Lemma starts_with_drop p s :
  starts_with p s = true -> s = p ++ drop (String.length p) s.
Proof.
  revert s. induction p as [|c p IH]; intros s H; [reflexivity|].
  destruct s as [|x s]; [discriminate|]. cbn [starts_with] in H.
  apply andb_true_iff in H as [E H]. apply Ascii.eqb_eq in E as ->.
  cbn [String.length drop append]. now rewrite <- (IH _ H).
Qed.

Lemma contains_split sub s :
  contains sub s = true -> exists a b, s = a ++ sub ++ b.
Proof.
  induction s as [|c s IH]; cbn [contains]; intros H.
  - rewrite orb_false_r in H. exists "", "".
    destruct sub; [reflexivity | discriminate].
  - apply orb_true_iff in H as [H|H].
    + exists "", (drop (String.length sub) (String c s)).
      now apply starts_with_drop.
    + destruct (IH H) as (a & b & ->). now exists (String c a), b.
Qed.

Lemma list_ascii_app a b :
  list_ascii_of_string (a ++ b)
  = (list_ascii_of_string a ++ list_ascii_of_string b)%list.
Proof. induction a as [|c a IH]; simpl; [reflexivity | now rewrite IH]. Qed.

Lemma string_of_list_app l1 l2 :
  string_of_list_ascii (l1 ++ l2)%list
  = string_of_list_ascii l1 ++ string_of_list_ascii l2.
Proof. induction l1 as [|c l IH]; simpl; [reflexivity | now rewrite IH]. Qed.

Lemma reverse_app a b : reverse (a ++ b) = reverse b ++ reverse a.
Proof.
  unfold reverse. now rewrite list_ascii_app, rev_app_distr, string_of_list_app.
Qed.

Lemma reverse_involutive s : reverse (reverse s) = s.
Proof.
  unfold reverse.
  now rewrite list_ascii_of_string_of_list_ascii, rev_involutive,
    string_of_list_ascii_of_string.
Qed.

Lemma contains_reverse sub s :
  contains sub s = true -> contains (reverse sub) (reverse s) = true.
Proof.
  intros H. destruct (contains_split _ _ H) as (a & b & ->).
  rewrite !reverse_app, append_assoc. apply contains_app_sep.
Qed.

(** Dropping leading pieces that cannot hold a part of [g] leaves every
    occurrence of [g] in place. *)
Lemma lstrip_go_keeps g ws fuel s :
  (forall w, In w ws -> forall r, contains g (w ++ r) = contains g r) ->
  contains g (lstrip_go ws fuel s) = contains g s.
Proof.
  intros W. revert s. induction fuel as [|f IH]; intros s; [reflexivity|].
  cbn [lstrip_go]. destruct (find _ ws) as [w|] eqn:F; [|reflexivity].
  apply find_some in F as [I S]. rewrite IH.
  rewrite (starts_with_drop _ _ S) at 2. symmetry. now apply W.
Qed.

Variable g : string.
Hypothesis leading : forall w, In w whitespace ->
  forall r, contains g (w ++ r) = contains g r.
Hypothesis trailing : forall w, In w (map reverse whitespace) ->
  forall r, contains (reverse g) (w ++ r) = contains (reverse g) r.
Hypothesis not_empty : contains g "" = false.

Lemma strip_keeps t : contains g t = true -> contains g (strip t) = true.
Proof.
  intros H. unfold strip, rstrip, lstrip.
  rewrite <- (reverse_involutive g). apply contains_reverse.
  rewrite (lstrip_go_keeps _ _ _ _ trailing). apply contains_reverse.
  now rewrite (lstrip_go_keeps _ _ _ _ leading).
Qed.

Lemma get_text_keeps (tag : node) (t : string) :
  In (NavigableString t) (descendants tag) ->
  contains g t = true ->
  contains g (get_text_strip tag) = true.
Proof.
  intros I H. unfold get_text_strip.
  apply (contains_join g (strip t)); [|now apply strip_keeps].
  apply filter_In. split.
  - apply in_map. apply in_flat_map. exists (NavigableString t).
    split; [exact I | now left].
  - unfold non_empty. destruct (String.eqb_spec (strip t) "") as [E|]; [|reflexivity].
    pose proof (strip_keeps t H) as K. rewrite E in K. congruence.
Qed.

End Markers.

Lemma open_leading w :
  In w PyStr.whitespace ->
  forall r, PyStr.contains "○" (w ++ r) = PyStr.contains "○" r.
Proof.
  intros I r. cbv in I.
  repeat (destruct I as [<-|I]; [reflexivity|]). contradiction.
Qed.

Lemma open_trailing w :
  In w (map PyStr.reverse PyStr.whitespace) ->
  forall r, PyStr.contains (PyStr.reverse "○") (w ++ r)
            = PyStr.contains (PyStr.reverse "○") r.
Proof.
  intros I r. cbv in I.
  repeat (destruct I as [<-|I]; [reflexivity|]). contradiction.
Qed.

Lemma limited_leading w :
  In w PyStr.whitespace ->
  forall r, PyStr.contains "△" (w ++ r) = PyStr.contains "△" r.
Proof.
  intros I r. cbv in I.
  repeat (destruct I as [<-|I]; [reflexivity|]). contradiction.
Qed.

Lemma limited_trailing w :
  In w (map PyStr.reverse PyStr.whitespace) ->
  forall r, PyStr.contains (PyStr.reverse "△") (w ++ r)
            = PyStr.contains (PyStr.reverse "△") r.
Proof.
  intros I r. cbv in I.
  repeat (destruct I as [<-|I]; [reflexivity|]). contradiction.
Qed.

(** X12: a marker is found wherever it stands in the emphasized text.
    When the first link of a cell has a date parameter and some text
    node anywhere below its first [em] holds [○], whatever white space
    or nested tags surround it, the cell sets its day to [○]; a text
    node with [△] sets the day to [△] when the emphasized text has no
    [○]. *)
Theorem marker_found_in_any_text_node
  (availability : dict) (cell link em_tag : node) (t : string) :
  find_tag "a" cell = Some link ->
  PyStr.contains "ynj=" (get link "href" "") = true ->
  find_tag "em" link = Some em_tag ->
  In (NavigableString t) (descendants em_tag) ->
  (PyStr.contains "○" t = true ->
   cell_step availability cell
   = Return (dict_set availability (day_label (link_day link)) "○"))
  /\ (PyStr.contains "△" t = true ->
      PyStr.contains "○" (get_text_strip em_tag) = false ->
      cell_step availability cell
      = Return (dict_set availability (day_label (link_day link)) "△")).
Proof.
  intros A Y E I. rewrite cell_step_spec.
  unfold apply_write, cell_write, cell_link, marker, emphasized.
  rewrite A, Y, E. split.
  - intros H.
    now rewrite (get_text_keeps "○" open_leading open_trailing eq_refl _ _ I H).
  - intros H N. rewrite N.
    now rewrite (get_text_keeps "△" limited_leading limited_trailing eq_refl
                   _ _ I H).
Qed.

Lemma marker_found_in_any_text_node_witness :
  cell_step initial_availability
    (Tag "td" []
       [NavigableString " ";
        Tag "a" [("href", day_href "9")]
          [Tag "em" [] [Tag "span" [("class", "mark")]
                          [NavigableString (" ○" ++ PyStr.nl)]]]])
  = Return (dict_set initial_availability (day_label "9") "○").
Proof.
  refine (proj1 (marker_found_in_any_text_node initial_availability
                   (Tag "td" []
                      [NavigableString " ";
                       Tag "a" [("href", day_href "9")]
                         [Tag "em" [] [Tag "span" [("class", "mark")]
                                         [NavigableString
                                            (" ○" ++ PyStr.nl)]]]])
                   (Tag "a" [("href", day_href "9")]
                      [Tag "em" [] [Tag "span" [("class", "mark")]
                                      [NavigableString (" ○" ++ PyStr.nl)]]])
                   (Tag "em" [] [Tag "span" [("class", "mark")]
                                   [NavigableString (" ○" ++ PyStr.nl)]])
                   (" ○" ++ PyStr.nl) _ _ _ _) _); try reflexivity.
  right. left. reflexivity.
Defined.

(** ** Which stored statuses the comparison reads *)

(** X13: the comparison reads the stored map only at the keys of the
    current one.  Two stored dicts, both not empty, that give the same
    value (with [×] for a missing key) at every key of the current map
    lead to the same outcome: a key that is only in the stored dict is
    never mentioned, and a key missing from it counts as full.  This
    holds in particular for two stored maps of statuses. *)
Theorem only_current_days_are_compared
  (py_str : json -> string) (current : dict)
  (members members' : list (string * json)) (posted : list string) :
  members <> [] -> members' <> [] ->
  (forall k, In k (keys current) ->
             dict_get members k (JString "×")
             = dict_get members' k (JString "×")) ->
  compare_and_notify py_str current (JObject members) posted
  = compare_and_notify py_str current (JObject members') posted.
Proof.
  intros N N' H. unfold compare_and_notify.
  destruct members as [|e members]; [congruence|].
  destruct members' as [|e' members']; [congruence|].
  cbn [truthy is_empty negb].
  destruct (sorted_days current) as [l|x] eqn:S.
  - destruct (sorted_days_keys _ _ S) as [P _].
    rewrite !(detect_changes_numbered _ _ _ _ S P).
    rewrite (flat_map_ext_on
               (change_of py_str current (e :: members))
               (change_of py_str current (e' :: members')) l);
      [reflexivity|].
    intros k I. unfold change_of.
    now rewrite (H k (Permutation_in _ P I)).
  - unfold detect_changes. rewrite S. reflexivity.
Qed.

Lemma only_current_days_are_compared_witness :
  compare_and_notify unprinted [("2月5日", "○"); ("2月6日", "×")]
    (status_object [("2月31日", "△"); ("2月5日", "×"); ("2月6日", "×")]) []
  = compare_and_notify unprinted [("2月5日", "○"); ("2月6日", "×")]
      (status_object [("2月5日", "×")]) [].
Proof.
  apply (only_current_days_are_compared unprinted
           [("2月5日", "○"); ("2月6日", "×")]
           (map (fun kv => (fst kv, JString (snd kv)))
                [("2月31日", "△"); ("2月5日", "×"); ("2月6日", "×")])
           (map (fun kv => (fst kv, JString (snd kv))) [("2月5日", "×")]) []);
    try discriminate.
  intros k [<-|[<-|[]]]; reflexivity.
Defined.
